(** * mars: MySQL backup driver -- sizing, batching, target resolution, rotation

    A shallow embedding of [mars.go] and the properties of its sizing
    decision, batching loop, database-list handling, failure policy, file
    naming and retention rotation. *)

From Stdlib Require Import ZArith Lia List Bool Ascii String.
From stdpp Require Import base option gmap strings list pretty.

Open Scope string_scope.
Open Scope list_scope.
Open Scope Z_scope.

(** ** Go's [int] on a 64-bit platform *)

Module GoInt.

Definition MinInt : Z := - 2 ^ 63.
Definition MaxInt : Z := 2 ^ 63 - 1.

(** Two's-complement wrap-around of a mathematical integer into [int]. *)
Definition wrap (z : Z) : Z := (z + 2 ^ 63) mod 2 ^ 64 - 2 ^ 63.

Definition in_range (z : Z) : Prop := MinInt <= z <= MaxInt.

(** [a + b], [a += b] and [a++] on [int]. *)
Definition add (a b : Z) : Z := wrap (a + b).

End GoInt.

(** ** The [strings] functions the program calls *)

Module GoStrings.

(** [strings.HasPrefix s p]. *)
Fixpoint HasPrefix (s p : string) {struct p} : bool :=
  match p, s with
  | EmptyString, _ => true
  | String _ _, EmptyString => false
  | String a p', String b s' => if Ascii.eqb a b then HasPrefix s' p' else false
  end.

(** [strings.Replace s old new (-1)] for a non-empty [old]: every
    non-overlapping occurrence, scanning from the left.  [skip] counts the
    characters of a matched occurrence that are still to be passed over. *)
Fixpoint replace_from (skip : nat) (old new s : string) : string :=
  match s with
  | EmptyString => EmptyString
  | String c s' =>
      match skip with
      | S k => replace_from k old new s'
      | O =>
          if HasPrefix s old
          then new +:+ replace_from (Nat.pred (String.length old)) old new s'
          else String c (replace_from O old new s')
      end
  end.

Definition Replace (s old new : string) : string := replace_from O old new s.

(** [strings.Split s sep] for a non-empty [sep]: the pieces between the
    occurrences of [sep]; [cur] is the piece being read, in reverse. *)
Fixpoint split_from (skip : nat) (sep : string) (cur : list ascii) (s : string)
  : list string :=
  match s with
  | EmptyString => [string_of_list_ascii (rev cur)]
  | String c s' =>
      match skip with
      | S k => split_from k sep cur s'
      | O =>
          if HasPrefix s sep
          then string_of_list_ascii (rev cur)
                 :: split_from (Nat.pred (String.length sep)) sep [] s'
          else split_from O sep (c :: cur) s'
      end
  end.

Definition Split (s sep : string) : list string := split_from O sep [] s.

(** [strings.Join elems sep]. *)
Fixpoint Join (elems : list string) (sep : string) : string :=
  match elems with
  | [] => ""
  | [x] => x
  | x :: rest => x +:+ sep +:+ Join rest sep
  end.

End GoStrings.

(** ** The [path] functions the program calls ([path/filepath] agrees with
    them on the Unix systems the program is written for) *)

Module GoPath.

(** The element loop of [path.Clean]: empty and ["."] elements vanish, [".."]
    removes the element before it, is dropped at the root of a rooted path and
    is kept at the front of a relative one.  [out] is the output so far, last
    element first. *)
Fixpoint clean_elems (rooted : bool) (out : list string) (elems : list string)
  : list string :=
  match elems with
  | [] => out
  | e :: rest =>
      if bool_decide (e = "") || bool_decide (e = ".") then clean_elems rooted out rest
      else if bool_decide (e = "..") then
        match out with
        | top :: out' =>
            if bool_decide (top = "..") then clean_elems rooted (e :: out) rest
            else clean_elems rooted out' rest
        | [] => if rooted then clean_elems rooted [] rest
                else clean_elems rooted [e] rest
        end
      else clean_elems rooted (e :: out) rest
  end.

(** [path.Clean]. *)
Definition Clean (p : string) : string :=
  let rooted := GoStrings.HasPrefix p "/" in
  let body := GoStrings.Join (rev (clean_elems rooted [] (GoStrings.Split p "/"))) "/" in
  let out := if rooted then "/" +:+ body else body in
  if bool_decide (out = "") then "." else out.

(** [path.Join]: the elements from the first non-empty one on, joined by
    slashes and cleaned; the empty string when every element is empty. *)
Fixpoint Join (elem : list string) : string :=
  match elem with
  | [] => ""
  | e :: rest =>
      if bool_decide (e = "") then Join rest
      else Clean (GoStrings.Join elem "/")
  end.

(** The part of a path up to and including its last slash ([path.Split]). *)
Fixpoint dir_part (p : string) : string :=
  match p with
  | EmptyString => EmptyString
  | String c p' =>
      match dir_part p' with
      | EmptyString => if Ascii.eqb c "/" then "/" else EmptyString
      | d => String c d
      end
  end.

(** [path.Dir]. *)
Definition Dir (p : string) : string := Clean (dir_part p).

End GoPath.

(** ** Data model *)

(** [time.Time], reduced to the calendar date of the instant: the program
    formats times with the layout ["2006-01-02"] and in no other way. *)
Record Time := { year : nat; month : nat; day : nat }.

Fixpoint zeros (n : nat) : string :=
  match n with
  | O => ""
  | S k => "0" +:+ zeros k
  end.

Definition zero_pad (width : nat) (n : nat) : string :=
  let digits := pretty n in
  zeros (width - String.length digits) +:+ digits.

(** [t.Format("2006-01-02")]. *)
Definition Format (t : Time) : string :=
  zero_pad 4 (year t) +:+ "-" +:+ zero_pad 2 (month t) +:+ "-" +:+ zero_pad 2 (day t).

(** [type Table struct]. *)
Record Table := NewTable { TableName : string; RowCount : Z }.

(** [type Options struct]. *)
Record Options := {
  HostName : string;
  Bind : string;
  UserName : string;
  Password : string;
  Databases : list string;
  ExcludedDatabases : list string;
  DatabaseRowCountTreshold : Z;
  TableRowCountTreshold : Z;
  BatchSize : Z;
  ForceSplit : bool;
  AdditionalMySQLDumpArgs : string;
  Verbosity : Z;
  MySQLDumpPath : string;
  OutputDirectory : string;
  DefaultsProvidedByUser : bool;
  ExecutionStartDate : Time;
  DailyRotation : Z;
  WeeklyRotation : Z;
  MontlyRotation : Z
}.

(** ** Database-list handling *)

(** Reading a [map[string]bool]: an absent key reads as [false]. *)
Definition map_get (m : gmap string bool) (k : string) : bool :=
  default false (m !! k).

(** One turn of the loop of [removeDuplicates], on the map [encountered] and
    the slice [result]. *)
Definition dedup_step (acc : gmap string bool * list string) (v : string)
  : gmap string bool * list string :=
  let '(encountered, result) := acc in
  if map_get encountered v then (encountered, result)
  else (<[v := true]> encountered, result ++ [v]).

(** [removeDuplicates]. *)
Definition removeDuplicates (elements : list string) : list string :=
  snd (fold_left dedup_step elements (∅, [])).

(** [difference a b]: the elements of [a] that are not keys of the map built
    from [b]. *)
Definition difference (a b : list string) : list string :=
  let mb := fold_left (fun (mb : gmap string bool) x => <[x := true]> mb) b ∅ in
  fold_left
    (fun ab x => match mb !! x with
                 | Some _ => ab
                 | None => ab ++ [x]
                 end)
    a [].

(** The position of the first occurrence of [x] in [l] (the length of [l]
    when there is none): what "first seen" means for a name of a list. *)
Fixpoint index_of (x : string) (l : list string) : nat :=
  match l with
  | [] => O
  | y :: rest => if bool_decide (x = y) then O else S (index_of x rest)
  end.

(** The four [strings.Replace] calls [NewOptions] applies to a
    comma-separated list before splitting it. *)
Definition strip_blanks (s : string) : string :=
  let s := GoStrings.Replace s " " "" in
  let s := GoStrings.Replace s " , " "," in
  let s := GoStrings.Replace s ", " "," in
  GoStrings.Replace s " ," ",".

(** The names of a comma-separated option, as [NewOptions] reads them. *)
Definition option_names (s : string) : list string :=
  GoStrings.Split (strip_blanks s) ",".

(** ** Sizing decision ([main], the branch on the total row count) *)

Inductive SizingDecision :=
| SingleFile        (* generateSingleFileBackup *)
| SplitSchemaData   (* generateSchemaBackup; generateSingleFileDataBackup *)
| PerTableBatched   (* generateSchemaBackup; generateTableBackup per table *)
| NoBackup.         (* none of the three tests of the chain holds *)

(** The if / else-if / else-if chain of [main].  The chain has no final
    [else], so falling through its three tests is an outcome of the control
    flow; it is kept as [NoBackup]. *)
Definition plan (ForceSplit : bool) (totalRowCount DatabaseRowCountTreshold : Z)
  : SizingDecision :=
  if negb ForceSplit && (totalRowCount <=? DatabaseRowCountTreshold) then SingleFile
  else if ForceSplit && (totalRowCount <=? DatabaseRowCountTreshold) then SplitSchemaData
  else if totalRowCount >? DatabaseRowCountTreshold then PerTableBatched
  else NoBackup.

(** [getTotalRowCount]: an accumulating [+=] over the tables. *)
Definition getTotalRowCount (tables : list Table) : Z :=
  fold_left (fun result table => GoInt.add result (RowCount table)) tables 0.

(** ** The file system the rotation works on

    A directory tree.  A symbolic link is a leaf whose target lies outside
    the model ([Lstat] sees the link, [Stat] fails on it as on a dangling
    one, and no path leads through it).  File modes are not represented.
    Directory entries are kept sorted by name, the order in which
    [ioutil.ReadDir] and [filepath.Walk] report them. *)

#[warnings="-register-all"]
Inductive Node :=
| File (content : string)
| Symlink
| Dir (entries : list (string * Node)).

Record Disk := { root : Node; cwd : list string }.

Definition IsDir (n : Node) : bool :=
  match n with
  | Dir _ => true
  | _ => false
  end.

Fixpoint assoc (name : string) (es : list (string * Node)) : option Node :=
  match es with
  | [] => None
  | (k, n) :: rest => if bool_decide (k = name) then Some n else assoc name rest
  end.

(** Adds or replaces the entry [name], keeping the entries sorted. *)
Fixpoint set_entry (name : string) (n : Node) (es : list (string * Node))
  : list (string * Node) :=
  match es with
  | [] => [(name, n)]
  | (k, m) :: rest =>
      if bool_decide (k = name) then (name, n) :: rest
      else if String.ltb name k then (name, n) :: (k, m) :: rest
      else (k, m) :: set_entry name n rest
  end.

Fixpoint lookup_node (elems : list string) (n : Node) : option Node :=
  match elems with
  | [] => Some n
  | e :: rest =>
      match n with
      | Dir es =>
          match assoc e es with
          | Some c => lookup_node rest c
          | None => None
          end
      | _ => None
      end
  end.

(** The way the kernel reads a path, element by element: every element is
    read in a directory that exists -- a missing directory or a file on the
    way is an error even when [".."] follows it --, an empty element and
    ["."] stay in the directory, [".."] leads to its parent, and to the root
    from the root.  [reached] names the directory reached so far by its
    elements from the root, the last first; the result names the entry the
    path ends at, which is looked up by the caller. *)
Fixpoint resolve (rt : Node) (reached : list string) (elems : list string)
  : option (list string) :=
  match elems with
  | [] => Some reached
  | e :: rest =>
      match lookup_node (rev reached) rt with
      | Some (Dir _) =>
          if bool_decide (e = "") || bool_decide (e = ".") then resolve rt reached rest
          else if bool_decide (e = "..") then resolve rt (tail reached) rest
          else resolve rt (e :: reached) rest
      | _ => None
      end
  end.

(** [os.Lstat]: [None] is an error.  A rooted path is read from the root, any
    other from the working directory. *)
Definition Lstat (d : Disk) (p : string) : option Node :=
  if bool_decide (p = "") then None
  else
    let start := if GoStrings.HasPrefix p "/" then [] else rev (cwd d) in
    match resolve (root d) start (GoStrings.Split p "/") with
    | Some reached => lookup_node (rev reached) (root d)
    | None => None
    end.

(** [os.Stat]. *)
Definition Stat (d : Disk) (p : string) : option Node :=
  match Lstat d p with
  | Some Symlink => None
  | r => r
  end.

(** [ioutil.ReadDir]. *)
Definition ReadDir (d : Disk) (p : string) : option (list (string * Node)) :=
  match Stat d p with
  | Some (Dir es) => Some es
  | _ => None
  end.

(** The elements from the root of the disk of a path that [Clean] has
    cleaned: [CopyDir] creates directories and files at such paths only, and
    for them reading [".."] off the text, as here, and the kernel's reading
    agree. *)
Definition abs_elems (d : Disk) (p : string) : list string :=
  let start := if GoStrings.HasPrefix p "/" then [] else rev (cwd d) in
  rev (GoPath.clean_elems true start (GoStrings.Split p "/")).

Fixpoint mkdir_all (elems : list string) (n : Node) : option Node :=
  match n with
  | Dir es =>
      match elems with
      | [] => Some n
      | e :: rest =>
          match mkdir_all rest (default (Dir []) (assoc e es)) with
          | Some c => Some (Dir (set_entry e c es))
          | None => None
          end
      end
  | _ => None
  end.

(** [os.MkdirAll] of a cleaned path: every missing directory of the path is
    created; an existing element that is not a directory is an error. *)
Definition MkdirAll (d : Disk) (p : string) : option Disk :=
  if bool_decide (p = "") then None
  else match mkdir_all (abs_elems d p) (root d) with
       | Some r => Some {| root := r; cwd := cwd d |}
       | None => None
       end.

Fixpoint put_file (elems : list string) (content : string) (n : Node) : option Node :=
  match elems, n with
  | [e], Dir es =>
      match assoc e es with
      | Some (Dir _) | Some Symlink => None
      | _ => Some (Dir (set_entry e (File content) es))
      end
  | e :: rest, Dir es =>
      match assoc e es with
      | Some c =>
          match put_file rest content c with
          | Some c' => Some (Dir (set_entry e c' es))
          | None => None
          end
      | None => None
      end
  | _, _ => None
  end.

(** Creating or truncating the file at the cleaned path [p] and writing
    [content] to it. *)
Definition write_file (d : Disk) (p : string) (content : string) : option Disk :=
  if bool_decide (p = "") then None
  else match put_file (abs_elems d p) content (root d) with
       | Some r => Some {| root := r; cwd := cwd d |}
       | None => None
       end.

(** [filepath.Walk]'s descent below a path whose [Lstat] succeeded: the paths
    handed to the callback, in order, for a callback that always returns
    [nil]. *)
Fixpoint walk (p : string) (info : Node) : list string :=
  p :: match info with
       | Dir es =>
           (fix children (es : list (string * Node)) : list string :=
              match es with
              | [] => []
              | (name, child) :: rest =>
                  walk (GoPath.Join [p; name]) child ++ children rest
              end) es
       | _ => []
       end.

(** [filepath.Walk root fn] for such a callback: when [Lstat root] fails the
    callback is still called once, with [root] and the error. *)
Definition Walk (d : Disk) (root : string) : list string :=
  match Lstat d root with
  | None => [root]
  | Some info => walk root info
  end.

(** [ListFiles]: the callback appends every path that is none of the three
    bare tier names, and ignores the error it is handed. *)
Definition ListFiles (d : Disk) (searchDir : string) : list string :=
  fold_left
    (fun fileList p =>
       if negb (bool_decide (p = "daily")) && negb (bool_decide (p = "weekly"))
          && negb (bool_decide (p = "monthly"))
       then fileList ++ [p] else fileList)
    (Walk d searchDir) [].

(** [CopyFile src dst]: the new disk and whether the returned error is
    [nil].  The source is opened, the destination created or truncated, the
    bytes copied; reading from an opened directory fails after the
    destination has been created. *)
Definition CopyFile (d : Disk) (src dst : string) : Disk * bool :=
  match Stat d src with
  | None => (d, false)
  | Some info =>
      match write_file d dst "" with
      | None => (d, false)
      | Some d1 =>
          match info with
          | File content =>
              match write_file d1 dst content with
              | Some d2 => (d2, true)
              | None => (d1, false)
              end
          | _ => (d1, false)
          end
      end
  end.

(** [CopyDir src dst]: [None] when the recursion is cut off by [fuel],
    otherwise the new disk and whether the returned error is [nil]. *)
Fixpoint CopyDir (fuel : nat) (d : Disk) (src dst : string) : option (Disk * bool) :=
  match fuel with
  | O => None
  | S fuel' =>
      let src := GoPath.Clean src in
      let dst := GoPath.Clean dst in
      match Stat d src with
      | None => Some (d, false)
      | Some si =>
          if negb (IsDir si) then Some (d, false)
          else
            match Stat d dst with
            | Some _ => Some (d, false)
            | None =>
                match MkdirAll d dst with
                | None => Some (d, false)
                | Some d1 =>
                    match ReadDir d1 src with
                    | None => Some (d1, false)
                    | Some entries =>
                        (fix each (entries : list (string * Node)) (d : Disk)
                           : option (Disk * bool) :=
                           match entries with
                           | [] => Some (d, true)
                           | (name, entry) :: rest =>
                               let srcPath := GoPath.Join [src; name] in
                               let dstPath := GoPath.Join [dst; name] in
                               match entry with
                               | Dir _ =>
                                   match CopyDir fuel' d srcPath dstPath with
                                   | None => None
                                   | Some (d', true) => each rest d'
                                   | Some (d', false) => Some (d', false)
                                   end
                               | Symlink => each rest d
                               | File _ =>
                                   match CopyFile d srcPath dstPath with
                                   | (d', true) => each rest d'
                                   | (d', false) => Some (d', false)
                                   end
                               end
                           end) entries d1
                    end
                end
            end
      end
  end.

(** [BackupRotation], given the reading [t] of [time.Now()] and the disk it
    finds.  The error [CopyDir] returns is discarded, as in the source; the
    weekly and daily blocks list the tier and act on nothing. *)
Definition BackupRotation (fuel : nat) (options : Options) (t : Time) (d : Disk)
  : option Disk :=
  let after_month :=
    if MontlyRotation options >? 0 then
      let month := ListFiles d (OutputDirectory options +:+ "/monthly") in
      if (length month =? 0)%nat then
        match CopyDir fuel d
                (OutputDirectory options +:+ "/daily/" +:+ Format t)
                (OutputDirectory options +:+ "/monthly/" +:+ Format t) with
        | Some (d', _) => Some d'
        | None => None
        end
      else Some d
    else Some d in
  match after_month with
  | None => None
  | Some d1 =>
      let d2 :=
        if WeeklyRotation options >? 0 then
          let month := ListFiles d1 (OutputDirectory options +:+ "/weekly") in
          if (length month =? 0)%nat then d1 else d1
        else d1 in
      let d3 :=
        if DailyRotation options >? 0 then
          let month := ListFiles d2 (OutputDirectory options +:+ "/daily") in
          if (length month =? 0)%nat then d2 else d2
        else d2 in
      Some d3
  end.

(** The names of the entries of a tier directory: its dated snapshots. *)
Definition snapshots (d : Disk) (tier : string) : list string :=
  match ReadDir d tier with
  | Some es => map fst es
  | None => []
  end.

(** ** The outside world of a run

    Everything the program asks of its environment is recorded as an event,
    with the answer it got; the answers come from an [Env], which may let
    them depend on all that happened before.  Console output -- the calls of
    [printMessage], among them the JSON text of the options that [GetOptions]
    prints -- is not represented. *)

Inductive OsOp :=
| OpStatIsNotExist  (* os.Stat followed by os.IsNotExist; the answer is [false]
                       when the path is reported missing *)
| OpMkdir           (* os.Mkdir *)
| OpMkdirAll        (* os.MkdirAll *)
| OpCreate          (* os.Create *)
| OpOpen            (* os.Open *)
| OpFileStat        (* file.Stat *)
| OpWriteHeader     (* tw.WriteHeader *)
| OpCopy            (* io.Copy *)
| OpRemove          (* os.Remove *)
| OpTarClose        (* tw.Close, deferred *)
| OpGzipClose       (* gw.Close, deferred *)
| OpFileClose.      (* file.Close of the archive file, deferred *)

Inductive Event :=
| EvOs (op : OsOp) (path : string) (ok : bool)
| EvDump (exe : string) (args : list string) (stderr : string).

Global Instance OsOp_eq_dec : EqDecision OsOp.
Proof. solve_decision. Defined.

Global Instance Event_eq_dec : EqDecision Event.
Proof. solve_decision. Defined.

(** A history lists the events of a run, the latest first. *)
Record Env := {
  time_Now : nat -> Time;
  os_Getwd : string;
  os_result : list Event -> OsOp -> string -> bool;
  dump_stderr : list Event -> string -> list string -> string;
  query_databases : list Event -> option (list string);
  query_tables : list Event -> string -> option (list Table);
  disk_after : list Event -> Disk
}.

Record State := { ticks : nat; trace : list Event }.

Inductive Outcome (A : Type) :=
| Returned (a : A)
| Exited (code : Z)   (* os.Exit *)
| Panicked            (* checkErr *)
| OutOfFuel.          (* the model's loop bound was reached *)

Arguments Returned {A} a.
Arguments Exited {A} code.
Arguments Panicked {A}.
Arguments OutOfFuel {A}.

Definition M (A : Type) : Type := State -> Outcome A * State.

Definition pure {A : Type} (a : A) : M A := fun st => (Returned a, st).

Global Instance M_ret : MRet M := @pure.

Global Instance M_bind : MBind M := fun A B (k : A -> M B) (m : M A) (st : State) =>
  match m st with
  | (Returned a, st') => k a st'
  | (Exited code, st') => (Exited code, st')
  | (Panicked, st') => (Panicked, st')
  | (OutOfFuel, st') => (OutOfFuel, st')
  end.

Definition os_Exit {A : Type} (code : Z) : M A := fun st => (Exited code, st).
Definition panic {A : Type} : M A := fun st => (Panicked, st).
Definition out_of_fuel {A : Type} : M A := fun st => (OutOfFuel, st).

Definition emit (e : Event) (st : State) : State :=
  {| ticks := ticks st; trace := e :: trace st |}.

(** [time.Now()]. *)
Definition Now (env : Env) : M Time :=
  fun st => (Returned (time_Now env (ticks st)),
             {| ticks := S (ticks st); trace := trace st |}).

Definition os_call (env : Env) (op : OsOp) (p : string) : M bool :=
  fun st =>
    let ok := os_result env (trace st) op p in
    (Returned ok, emit (EvOs op p ok) st).

(** [exec.Command(exe, args...)] run to completion; the result is what the
    command wrote to its standard error. *)
Definition run_command (env : Env) (exe : string) (args : list string) : M string :=
  fun st =>
    let stderr := dump_stderr env (trace st) exe args in
    (Returned stderr, emit (EvDump exe args stderr) st).

(** [for _, x := range xs { body }]. *)
Fixpoint for_each {A : Type} (xs : list A) (body : A -> M unit) : M unit :=
  match xs with
  | [] => pure tt
  | x :: rest => body x;; for_each rest body
  end.

(** [GetDatabaseList] and [GetTables]: a failed query panics in [checkErr]. *)
Definition GetDatabaseList (env : Env) : M (list string) :=
  fun st =>
    match query_databases env (trace st) with
    | Some dbs => pure dbs st
    | None => panic st
    end.

Definition GetTables (env : Env) (database : string) : M (list Table) :=
  fun st =>
    match query_tables env (trace st) database with
    | Some tables => pure tables st
    | None => panic st
    end.

(** ** Dumps and archives *)

(** [Compress tw path]: [true] stands for a [nil] error.  A failing
    [file.Stat] skips the archiving and still returns [nil].  The deferred
    [Close] of the source file, which is open for reading, is not
    represented. *)
Definition Compress (env : Env) (p : string) : M bool :=
  opened ← os_call env OpOpen p;
  if negb opened then pure false
  else
    has_stat ← os_call env OpFileStat p;
    if (has_stat : bool) then
      header ← os_call env OpWriteHeader p;
      if negb header then pure false
      else
        copied ← os_call env OpCopy p;
        if negb copied then pure false
        else
          removed ← os_call env OpRemove p;
          if negb removed then pure false else pure true
    else pure true.

(** The tail the four [generate...] functions share word for word: run the
    dump, leave with status 4 when it wrote to its standard error, create the
    [.tar.gz] file and compress into it, leaving with status 4 when either
    step reports an error.  The three [Close] calls it defers are run by
    [close_archive] when the calling function returns; [os.Exit] does not
    run them. *)
Definition dump_and_archive (env : Env) (options : Options) (args : list string)
  (filename : string) : M unit :=
  err ← run_command env (MySQLDumpPath options) args;
  if negb (bool_decide (err = "")) then os_Exit 4
  else
    created ← os_call env OpCreate (filename +:+ ".tar.gz");
    if negb created then os_Exit 4
    else
      ok ← Compress env filename;
      if negb ok then os_Exit 4 else pure tt.

(** The calls a [generate...] function defers for one archive, in the order
    in which they run when the function returns, the last deferred first:
    [tw.Close()], [gw.Close()], [file.Close()].  They write the end of the
    archive and pass what is still buffered to the file; the program drops
    their errors. *)
Definition close_archive (env : Env) (archive : string) : M unit :=
  os_call env OpTarClose archive;;
  os_call env OpGzipClose archive;;
  os_call env OpFileClose archive;;
  pure tt.

(** The connection arguments every dump starts with. *)
Definition connection_args (options : Options) : list string :=
  [ "-h" +:+ HostName options; "-u" +:+ UserName options; "-p" +:+ Password options ].

Definition additional_args (options : Options) : list string :=
  if negb (bool_decide (AdditionalMySQLDumpArgs options = ""))
  then GoStrings.Split (AdditionalMySQLDumpArgs options) " "
  else [].

(** The [timestamp] of the file names: the start date without its dashes. *)
Definition timestamp (options : Options) : string :=
  GoStrings.Replace
    (GoStrings.Replace (Format (ExecutionStartDate options)) "-" "") ":" "".

(** The [filename] of a dump: [t] is the reading of [time.Now()] taken for
    this file, [base] the formatted last element. *)
Definition dump_path (options : Options) (t : Time) (db base : string) : string :=
  GoPath.Join [ OutputDirectory options; "daily"; Format t;
                db +:+ "-" +:+ Format (ExecutionStartDate options); base ].

(** The argument that selects a batch window. *)
Definition where_arg (counter batch : Z) : string :=
  "--where=1=1 LIMIT " +:+ pretty counter +:+ ", " +:+ pretty batch.

(** The [filename] and the arguments of the dump of one batch window. *)
Definition batch_filename (options : Options) (t : Time) (db : string) (table : Table)
  (index : Z) : string :=
  dump_path options t db
    (db +:+ "_" +:+ TableName table +:+ pretty index +:+ "_"
        +:+ timestamp options +:+ ".sql").

Definition batch_args (options : Options) (t : Time) (db : string) (table : Table)
  (index counter : Z) : list string :=
  (connection_args options
     ++ ["--no-create-db"; "--skip-triggers"; "--no-create-info"]
     ++ additional_args options)
    ++ ["-r" +:+ batch_filename options t db table index;
        where_arg counter (BatchSize options);
        db; TableName table].

(** The body of the batching loop of [generateTableBackup]; its result is
    the archive whose [Close] calls the turn has deferred. *)
Definition table_batch (env : Env) (options : Options) (db : string) (table : Table)
  (index counter : Z) : M string :=
  t ← Now env;
  let filename := batch_filename options t db table index in
  os_call env OpMkdir (GoPath.Dir filename);;
  dump_and_archive env options (batch_args options t db table index counter) filename;;
  pure (filename +:+ ".tar.gz").

(** [for counter := 0; counter <= table.RowCount; counter += options.BatchSize],
    entered with the current [index] and [counter] and with the archives
    [deferred] so far, the latest first; its result is the archives deferred
    when the loop is left. *)
Fixpoint batch_loop (fuel : nat) (env : Env) (options : Options) (db : string)
  (table : Table) (index counter : Z) (deferred : list string) : M (list string) :=
  match fuel with
  | O => out_of_fuel
  | S fuel' =>
      if counter <=? RowCount table then
        archive ← table_batch env options db table index counter;
        batch_loop fuel' env options db table
          (GoInt.add index 1) (GoInt.add counter (BatchSize options))
          (archive :: deferred)
      else pure deferred
  end.

(** [generateTableBackup]: the [defer] statements stand in the body of the
    loop, so the archives of all batches stay open until the loop is left,
    and are closed then, the latest first. *)
Definition generateTableBackup (fuel : nat) (env : Env) (options : Options)
  (db : string) (table : Table) : M unit :=
  deferred ← batch_loop fuel env options db table 1 0 [];
  for_each deferred (close_archive env).

(** [generateSchemaBackup], [generateSingleFileDataBackup] and
    [generateSingleFileBackup] differ in their flags and in the tag of the
    file name. *)
Definition generate_whole (env : Env) (options : Options) (db : string)
  (flags : list string) (tag : string) : M unit :=
  let args := connection_args options ++ flags ++ additional_args options in
  t ← Now env;
  let filename :=
    dump_path options t db
      (db +:+ "_" +:+ tag +:+ "_" +:+ timestamp options +:+ ".sql") in
  os_call env OpMkdir (GoPath.Dir filename);;
  let args := args ++ ["-r" +:+ filename; db] in
  dump_and_archive env options args filename;;
  close_archive env (filename +:+ ".tar.gz").

Definition generateSchemaBackup (env : Env) (options : Options) (db : string) : M unit :=
  generate_whole env options db ["--no-data"] "SCHEMA".

Definition generateSingleFileDataBackup (env : Env) (options : Options) (db : string)
  : M unit :=
  generate_whole env options db
    ["--no-create-db"; "--skip-triggers"; "--no-create-info"] "DATA".

Definition generateSingleFileBackup (env : Env) (options : Options) (db : string)
  : M unit :=
  generate_whole env options db [] "ALL".

(** ** Options *)

(** [NewOptions].  The slice [excludeddbs] of the result is the outer
    variable, which the inner [:=] of the all-databases branch shadows and
    never assigns; the branch also overwrites the local string [databases],
    which is not read again. *)
Definition NewOptions (env : Env) (hostname bind username password : string)
  (databases excludeddatabases : string)
  (databasetreshold tablethreshold batchsize : Z) (forcesplit : bool)
  (additionals : string) (verbosity : Z) (mysqldumppath outputDirectory : string)
  (defaultsProvidedByUser : bool) (dailyrotation weeklyrotation montlyrotation : Z)
  : M Options :=
  let databases := strip_blanks databases in
  let dbs := removeDuplicates (GoStrings.Split databases ",") in
  let excludeddbs : list string := [] in
  dbs ← (if bool_decide (databases = "--all-databases") then
           let excludeddatabases :=
             excludeddatabases +:+ ",information_schema,performance_schema" in
           dbslist ← GetDatabaseList env;
           let excludeddatabases := strip_blanks excludeddatabases in
           let excludeddbs := removeDuplicates (GoStrings.Split excludeddatabases ",") in
           pure (difference dbslist excludeddbs)
         else pure dbs);
  t ← Now env;
  pure {| HostName := hostname; Bind := bind; UserName := username;
          Password := password; Databases := dbs;
          ExcludedDatabases := excludeddbs;
          DatabaseRowCountTreshold := databasetreshold;
          TableRowCountTreshold := tablethreshold;
          BatchSize := batchsize; ForceSplit := forcesplit;
          AdditionalMySQLDumpArgs := additionals; Verbosity := verbosity;
          MySQLDumpPath := mysqldumppath; OutputDirectory := outputDirectory;
          DefaultsProvidedByUser := defaultsProvidedByUser;
          ExecutionStartDate := t;
          DailyRotation := dailyrotation; WeeklyRotation := weeklyrotation;
          MontlyRotation := montlyrotation |}.

(** The command line after [flag.Parse()]. *)
Record Flags := {
  flag_hostname : string;
  flag_bind : string;
  flag_username : string;
  flag_password : string;
  flag_databases : string;
  flag_excluded_databases : string;
  flag_dbthreshold : Z;
  flag_tablethreshold : Z;
  flag_batchsize : Z;
  flag_forcesplit : bool;
  flag_additionals : string;
  flag_verbosity : Z;
  flag_mysqldump_path : string;
  flag_output_dir : string;
  flag_daily_rotation : Z;
  flag_weekly_rotation : Z;
  flag_montly_rotation : Z;
  flag_test : bool
}.

Definition double_quote : ascii := ascii_of_nat 34.

(** The arguments of the dump that the [-test] flag runs. *)
Definition test_args : list string :=
  [ "-h127.0.0.1"; "-uroot"; "-pXXXX"; "--no-create-db"; "--skip-triggers";
    "--no-create-info"; "--single-transaction"; "--skip-extended-insert";
    "--quick"; "--skip-add-locks"; "--default-character-set=utf8"; "--compress";
    "mysql";
    "--where=" +:+ String double_quote
                     ("1=1 LIMIT 1000000, 1000000" +:+ String double_quote "");
    "user"; "host" ].

(** [GetOptions], from the parsed flags on.  The text of the options, which
    it makes with [json.MarshalIndent] and prints between two other messages,
    is console output and not represented; it is the only reader of the field
    [TableRowCountTreshold]. *)
Definition GetOptions (env : Env) (flags : Flags) : M Options :=
  let outputdir :=
    if bool_decide (flag_output_dir flags = "") then os_Getwd env
    else flag_output_dir flags in
  found ← os_call env OpStatIsNotExist (flag_mysqldump_path flags);
  if negb found then os_Exit 1
  else
    t ← Now env;
    os_call env OpMkdirAll (outputdir +:+ "/daily/" +:+ Format t);;
    os_call env OpMkdirAll (outputdir +:+ "/weekly");;
    os_call env OpMkdirAll (outputdir +:+ "/monthly");;
    opts ← NewOptions env (flag_hostname flags) (flag_bind flags)
             (flag_username flags) (flag_password flags) (flag_databases flags)
             (flag_excluded_databases flags) (flag_dbthreshold flags)
             (flag_tablethreshold flags) (flag_batchsize flags)
             (flag_forcesplit flags) (flag_additionals flags)
             (flag_verbosity flags) (flag_mysqldump_path flags) outputdir true
             (flag_daily_rotation flags) (flag_weekly_rotation flags)
             (flag_montly_rotation flags);
    if flag_test flags then
      err ← run_command env (MySQLDumpPath opts) test_args;
      if negb (bool_decide (err = "")) then os_Exit 4 else os_Exit 4
    else pure opts.

(** ** The run *)

(** The arguments of the dumps a history holds, the earliest first. *)
Definition dumped (history : list Event) : list (list string) :=
  omap (fun e => match e with
                 | EvDump _ args _ => Some args
                 | EvOs _ _ _ => None
                 end) (rev history).

(** The calls whose error the program acts on while it dumps and archives:
    [os.Create] of the archive, and the steps of [Compress] whose error it
    returns. *)
Definition checked (op : OsOp) : bool :=
  match op with
  | OpCreate | OpOpen | OpWriteHeader | OpCopy | OpRemove => true
  | _ => false
  end.

(** The events after which the program leaves with status 4: a dump that
    wrote to its standard error, and a checked call that failed. *)
Definition is_failure (e : Event) : bool :=
  match e with
  | EvDump _ _ stderr => negb (bool_decide (stderr = ""))
  | EvOs op _ ok => checked op && negb ok
  end.


(** The event after which the program leaves with status 1: the dump
    executable reported missing. *)
Definition is_missing_executable (e : Event) : bool :=
  match e with
  | EvOs OpStatIsNotExist _ ok => negb ok
  | _ => false
  end.

(** A loop that never returns to its caller, however many turns it is
    given. *)
Definition never_returns (loop : nat -> M unit) (st : State) : Prop :=
  forall fuel, (loop fuel st).1 <> Returned tt.

(** An environment in which no step fails that the program acts on: every
    dump is silent and every checked call succeeds.  The calls whose error
    the program drops may fail or not: [os.Mkdir] -- which fails for a
    directory that exists, so from the second dump of a database on --,
    [file.Stat] and the deferred [Close] calls. *)
Definition all_succeed (env : Env) : Prop :=
  (forall history exe args, dump_stderr env history exe args = "")
  /\ (forall history op p, checked op = true -> os_result env history op p = true).

(** The body of the loop of [main] over the databases. *)
Definition process_database (fuel : nat) (env : Env) (options : Options) (db : string)
  : M unit :=
  tables ← GetTables env db;
  let totalRowCount := getTotalRowCount tables in
  match plan (ForceSplit options) totalRowCount (DatabaseRowCountTreshold options) with
  | SingleFile => generateSingleFileBackup env options db
  | SplitSchemaData =>
      generateSchemaBackup env options db;;
      generateSingleFileDataBackup env options db
  | PerTableBatched =>
      generateSchemaBackup env options db;;
      for_each tables (generateTableBackup fuel env options db)
  | NoBackup => pure tt
  end.

(** The disk as the environment presents it after the events so far. *)
Definition current_disk (env : Env) : M Disk :=
  fun st => (Returned (disk_after env (trace st)), st).

(** [main]; its result is the disk the rotation leaves. *)
Definition main (fuel : nat) (env : Env) (flags : Flags) : M Disk :=
  options ← GetOptions env flags;
  for_each (Databases options) (process_database fuel env options);;
  t ← Now env;
  d ← current_disk env;
  match BackupRotation fuel options t d with
  | Some d' => pure d'
  | None => out_of_fuel
  end.

(** ** Concrete inputs of the examples *)

Definition august (d : nat) : Time := {| year := 2017; month := 8; day := d |}.

(** A backup directory after a first day of dumps: one daily snapshot, and
    the weekly and monthly tiers created and still empty. *)
Definition disk_first_day : Disk :=
  {| root :=
       Dir [("backup",
             Dir [("daily",
                   Dir [("2017-08-05",
                         Dir [("sales-2017-08-05",
                               Dir [("sales_ALL_20170805.sql.tar.gz",
                                     File "archive")])])]);
                  ("monthly", Dir []);
                  ("weekly", Dir [])])];
     cwd := ["backup"] |}.

(** An environment in which every dump is silent and every call succeeds;
    the server holds the databases of the example of the specification and
    the two system schemas, and the only table has two million rows. *)
Definition env_quiet : Env :=
  {| time_Now := fun _ => august 5;
     os_Getwd := "/backup";
     os_result := fun _ _ _ => true;
     dump_stderr := fun _ _ _ => "";
     query_databases := fun _ =>
       Some ["information_schema"; "mysql"; "performance_schema"; "test"; "app"];
     query_tables := fun _ _ => Some [NewTable "orders" 2000000];
     disk_after := fun _ => disk_first_day |}.

(** The default flags, with three million rows as the database threshold. *)
Definition flags_nothing_excluded : Flags :=
  {| flag_hostname := "localhost"; flag_bind := "3306";
     flag_username := "root"; flag_password := "1234";
     flag_databases := "--all-databases"; flag_excluded_databases := "";
     flag_dbthreshold := 3000000; flag_tablethreshold := 5000000;
     flag_batchsize := 1000000; flag_forcesplit := false;
     flag_additionals := ""; flag_verbosity := 2;
     flag_mysqldump_path := "/usr/bin/mysqldump"; flag_output_dir := "/backup";
     flag_daily_rotation := 5; flag_weekly_rotation := 2;
     flag_montly_rotation := 1; flag_test := false |}.

(** The second end-to-end scenario of the specification: a threshold of one
    million rows and batches of 500000. *)
Definition flags_batched : Flags :=
  {| flag_hostname := "localhost"; flag_bind := "3306";
     flag_username := "root"; flag_password := "1234";
     flag_databases := "sales"; flag_excluded_databases := "";
     flag_dbthreshold := 1000000; flag_tablethreshold := 5000000;
     flag_batchsize := 500000; flag_forcesplit := false;
     flag_additionals := ""; flag_verbosity := 2;
     flag_mysqldump_path := "/usr/bin/mysqldump"; flag_output_dir := "/backup";
     flag_daily_rotation := 5; flag_weekly_rotation := 2;
     flag_montly_rotation := 1; flag_test := false |}.

Definition state_start : State := {| ticks := 0; trace := [] |}.

(** The backup directory two days later: three daily snapshots. *)
Definition disk_third_day : Disk :=
  {| root :=
       Dir [("backup",
             Dir [("daily",
                   Dir [("2017-08-03", Dir [("sales-2017-08-03", Dir [])]);
                        ("2017-08-04", Dir [("sales-2017-08-04", Dir [])]);
                        ("2017-08-05", Dir [("sales-2017-08-05", Dir [])])]);
                  ("monthly", Dir []);
                  ("weekly", Dir [])])];
     cwd := ["backup"] |}.

(** Options that keep the given numbers of snapshots. *)
Definition options_with_retention (daily weekly monthly : Z) : Options :=
  {| HostName := "localhost"; Bind := "3306"; UserName := "root";
     Password := "1234"; Databases := ["sales"]; ExcludedDatabases := [];
     DatabaseRowCountTreshold := 1000000; TableRowCountTreshold := 5000000;
     BatchSize := 500000; ForceSplit := false;
     AdditionalMySQLDumpArgs := ""; Verbosity := 2;
     MySQLDumpPath := "/usr/bin/mysqldump"; OutputDirectory := "/backup";
     DefaultsProvidedByUser := true; ExecutionStartDate := august 5;
     DailyRotation := daily; WeeklyRotation := weekly; MontlyRotation := monthly |}.

(** The first end-to-end scenario of the specification -- the database
    sales with 50 orders and 10 customers -- under a given clock. *)
Definition env_sales (clock : nat -> Time) : Env :=
  {| time_Now := clock;
     os_Getwd := "/backup";
     os_result := fun _ _ _ => true;
     dump_stderr := fun _ _ _ => "";
     query_databases := fun _ => Some ["sales"];
     query_tables := fun _ _ => Some [NewTable "orders" 50; NewTable "customers" 10];
     disk_after := fun _ => disk_first_day |}.

(** A run that starts on 5 August just before midnight: the clock reads
    5 August twice at startup and 6 August when the dump is made. *)
Definition env_midnight : Env :=
  env_sales (fun n => if (n <? 2)%nat then august 5 else august 6).

Definition flags_sales : Flags :=
  {| flag_hostname := "localhost"; flag_bind := "3306";
     flag_username := "root"; flag_password := "1234";
     flag_databases := "sales"; flag_excluded_databases := "";
     flag_dbthreshold := 1000; flag_tablethreshold := 5000000;
     flag_batchsize := 1000000; flag_forcesplit := false;
     flag_additionals := ""; flag_verbosity := 2;
     flag_mysqldump_path := "/usr/bin/mysqldump"; flag_output_dir := "/backup";
     flag_daily_rotation := 5; flag_weekly_rotation := 2;
     flag_montly_rotation := 1; flag_test := false |}.

(** Options with the given batch size, otherwise those of the second
    end-to-end scenario of the specification. *)
Definition options_with_batch (batchsize : Z) : Options :=
  {| HostName := "localhost"; Bind := "3306"; UserName := "root";
     Password := "1234"; Databases := ["sales"]; ExcludedDatabases := [];
     DatabaseRowCountTreshold := 1000000; TableRowCountTreshold := 5000000;
     BatchSize := batchsize; ForceSplit := false;
     AdditionalMySQLDumpArgs := ""; Verbosity := 2;
     MySQLDumpPath := "/usr/bin/mysqldump"; OutputDirectory := "/backup";
     DefaultsProvidedByUser := true; ExecutionStartDate := august 5;
     DailyRotation := 5; WeeklyRotation := 2; MontlyRotation := 1 |}.


(** As [env_quiet], but the dump executable is reported missing. *)
Definition env_no_executable : Env :=
  {| time_Now := fun _ => august 5;
     os_Getwd := "/backup";
     os_result := fun _ op _ =>
       match op with
       | OpStatIsNotExist => false
       | _ => true
       end;
     dump_stderr := fun _ _ _ => "";
     query_databases := fun _ => Some ["mysql"];
     query_tables := fun _ _ => Some [NewTable "orders" 2000000];
     disk_after := fun _ => disk_first_day |}.



(** As [env_quiet] on a disk that keeps what is made on it: every [os.Mkdir]
    of a directory that an earlier [os.Mkdir] has made fails. *)
Definition env_real_mkdir : Env :=
  {| time_Now := fun _ => august 5;
     os_Getwd := "/backup";
     os_result := fun history op p =>
       match op with
       | OpMkdir => negb (bool_decide (EvOs OpMkdir p true ∈ history))
       | _ => true
       end;
     dump_stderr := fun _ _ _ => "";
     query_databases := fun _ =>
       Some ["information_schema"; "mysql"; "performance_schema"; "test"; "app"];
     query_tables := fun _ _ => Some [NewTable "orders" 2000000];
     disk_after := fun _ => disk_first_day |}.

(** The calls of [op] in a history, the earliest first: the path and the
    answer of each. *)
Definition calls (op : OsOp) (history : list Event) : list (string * bool) :=
  omap (fun e => match e with
                 | EvOs op' p ok => if bool_decide (op' = op) then Some (p, ok) else None
                 | EvDump _ _ _ => None
                 end) (rev history).

(** ** Invariants used in the proofs *)

(** A path that is none of the three bare tier names: the test of the
    callback of [ListFiles]. *)
Definition not_bare_tier (p : string) : Prop :=
  p <> "daily" /\ p <> "weekly" /\ p <> "monthly".


(** What the loop has established after reading the elements [pre]. *)
Definition dedup_inv (pre : list string) (acc : gmap string bool * list string) : Prop :=
  (forall x, map_get acc.1 x = true <-> x ∈ pre)
  /\ NoDup acc.2
  /\ (forall x, x ∈ acc.2 <-> x ∈ pre)
  /\ (forall (i j : nat) x y, acc.2 !! i = Some x -> acc.2 !! j = Some y ->
        (i < j)%nat -> (index_of x pre < index_of y pre)%nat).

(** A string without blanks. *)
Fixpoint blank_free (s : string) : bool :=
  match s with
  | EmptyString => true
  | String c s' => negb (Ascii.eqb c " ") && blank_free s'
  end.

(** The events that do not end a run. *)
Definition harmless (e : Event) : Prop :=
  is_failure e = false /\ is_missing_executable e = false.

(** The status the program leaves with after an event that ends the run. *)
Definition fatal_code (e : Event) : option Z :=
  if is_failure e then Some 4
  else if is_missing_executable e then Some 1
  else None.

(** The events [new] of a computation and its outcome obey the failure
    policy: no event ends the run and the computation does not leave through
    [os.Exit]; or the latest event ends the run, the outcome is the exit with
    its status, and no event before it ends the run; or, under the [-test]
    flag only, the latest event is the silent dump of the test and the
    outcome is the exit with status 4. *)
Definition fail_fast {A : Type} (test : bool) (out : Outcome A) (new : list Event)
  : Prop :=
  (Forall harmless new /\ forall code, out <> Exited code)
  \/ (exists e earlier code,
        new = e :: earlier /\ fatal_code e = Some code /\ out = Exited code
        /\ Forall harmless earlier)
  \/ (test = true
      /\ exists exe earlier,
           new = EvDump exe test_args "" :: earlier /\ out = Exited 4
           /\ Forall harmless earlier).

Definition disciplined {A : Type} (test : bool) (m : M A) : Prop :=
  forall st, exists new,
    trace (m st).2 = new ++ trace st /\ fail_fast test (m st).1 new.


(** ** Further definitions *)

(** The mathematical sum of the row counts of a list of tables. *)
Definition row_sum (tables : list Table) : Z :=
  foldr Z.add 0 (map RowCount tables).

(** As [env_quiet], but no archive header can be written: a full disk. *)
Definition env_disk_full : Env :=
  {| time_Now := fun _ => august 5;
     os_Getwd := "/backup";
     os_result := fun _ op _ =>
       match op with
       | OpWriteHeader => false
       | _ => true
       end;
     dump_stderr := fun _ _ _ => "";
     query_databases := fun _ => Some ["sales"];
     query_tables := fun _ _ => Some [NewTable "orders" 50];
     disk_after := fun _ => disk_first_day |}.

(** The number of batch windows of a table: the turns of a loop that runs
    from 0 in steps of [batch] while the counter is at most the row count. *)
Definition windows (batch : Z) (table : Table) : nat :=
  Z.to_nat (RowCount table / batch + 1).

(** The arguments of a dump of a whole database made at the clock reading
    [t]: the connection, the flags of the kind of dump, the additional
    arguments, the file and the database. *)
Definition whole_args (options : Options) (t : Time) (db : string)
  (flags : list string) (tag : string) : list string :=
  (connection_args options ++ flags ++ additional_args options)
    ++ ["-r" +:+ dump_path options t db
                   (db +:+ "_" +:+ tag +:+ "_" +:+ timestamp options +:+ ".sql");
        db].

(** The dumps of the batch windows of a list of tables, when the clock has
    been read [tick] times before: window [k] of a table is numbered
    [1 + k], starts at row [k * BatchSize], and reads the clock once. *)
Fixpoint table_dumps (env : Env) (options : Options) (db : string) (tick : nat)
  (tables : list Table) : list (list string) :=
  match tables with
  | [] => []
  | table :: rest =>
      map (fun k : nat =>
             batch_args options (time_Now env (tick + k)) db table
               (1 + Z.of_nat k) (Z.of_nat k * BatchSize options))
          (seq 0 (windows (BatchSize options) table))
        ++ table_dumps env options db (tick + windows (BatchSize options) table) rest
  end.

(** The dumps of a database under each strategy, when the clock has been
    read [tick] times before. *)
Definition dumps_expected (env : Env) (options : Options) (db : string)
  (decision : SizingDecision) (tick : nat) (tables : list Table)
  : list (list string) :=
  match decision with
  | SingleFile => [whole_args options (time_Now env tick) db [] "ALL"]
  | SplitSchemaData =>
      [ whole_args options (time_Now env tick) db ["--no-data"] "SCHEMA";
        whole_args options (time_Now env (S tick)) db
          ["--no-create-db"; "--skip-triggers"; "--no-create-info"] "DATA" ]
  | PerTableBatched =>
      whole_args options (time_Now env tick) db ["--no-data"] "SCHEMA"
        :: table_dumps env options db (S tick) tables
  | NoBackup => []
  end.

(** The number of dumps of a database under each strategy. *)
Definition dumps_of_strategy (decision : SizingDecision) (batch : Z)
  (tables : list Table) : nat :=
  match decision with
  | SingleFile => 1
  | SplitSchemaData => 2
  | PerTableBatched => 1 + sum_list (map (windows batch) tables)
  | NoBackup => 0
  end.

(** An environment whose server holds the database sales with the given
    tables, on a disk that keeps what is made on it: no dump or archive step
    fails, and every [os.Mkdir] of a directory that an earlier [os.Mkdir] has
    made fails. *)
Definition env_sales_tables (tables : list Table) : Env :=
  {| time_Now := fun _ => august 5;
     os_Getwd := "/backup";
     os_result := fun history op p =>
       match op with
       | OpMkdir => negb (bool_decide (EvOs OpMkdir p true ∈ history))
       | _ => true
       end;
     dump_stderr := fun _ _ _ => "";
     query_databases := fun _ => Some ["sales"];
     query_tables := fun _ _ => Some tables;
     disk_after := fun _ => disk_first_day |}.



(** ** Console messages *)

(** The message types: [1 << iota] for iota = 0, 1, 2. *)
Module MessageType.
Definition Info : Z := Z.shiftl 1 0.
Definition Warning : Z := Z.shiftl 1 1.
Definition Error : Z := Z.shiftl 1 2.
End MessageType.

(** [printMessage message verbosity messageType]: whether the message is
    printed.  The three branches print in the same way. *)
Definition printMessage_prints (verbosity messageType : Z) : bool :=
  if verbosity =? 2 then true
  else if (verbosity =? 1) && (messageType >? 1) then true
  else if (verbosity =? 0) && (messageType >? 2) then true
  else false.

(** The flags of a run with three databases and the -test flag. *)
Definition flags_test_run : Flags :=
  {| flag_hostname := "localhost"; flag_bind := "3306";
     flag_username := "root"; flag_password := "1234";
     flag_databases := "--all-databases"; flag_excluded_databases := "";
     flag_dbthreshold := 3000000; flag_tablethreshold := 5000000;
     flag_batchsize := 1000000; flag_forcesplit := false;
     flag_additionals := ""; flag_verbosity := 2;
     flag_mysqldump_path := "/usr/bin/mysqldump"; flag_output_dir := "/backup";
     flag_daily_rotation := 5; flag_weekly_rotation := 2;
     flag_montly_rotation := 1; flag_test := true |}.

(** ** What a run executes *)

(** An event that, if it is a command, runs the executable [exe] with the
    arguments of the test dump or with arguments that start with [conn]. *)
Definition runs_only (exe : string) (conn : list string) (e : Event) : Prop :=
  match e with
  | EvDump exe' args _ => exe' = exe /\ (args = test_args \/ take 3 args = conn)
  | EvOs _ _ _ => True
  end.

(** Every event a computation adds satisfies [P]. *)
Definition emits {A : Type} (P : Event -> Prop) (m : M A) : Prop :=
  forall st, exists new, trace (m st).2 = new ++ trace st /\ Forall P new.

(** The connection arguments as the flags give them. *)
Definition flags_connection_args (flags : Flags) : list string :=
  [ "-h" +:+ flag_hostname flags; "-u" +:+ flag_username flags;
    "-p" +:+ flag_password flags ].

(** ** Deferred calls *)



(** * Properties *)

(** ** Go's [int] *)

Lemma wrap_in_range (z : Z) : GoInt.in_range z -> GoInt.wrap z = z.
Proof.
  unfold GoInt.in_range, GoInt.MinInt, GoInt.MaxInt, GoInt.wrap. intros H.
  rewrite Z.mod_small; lia.
Qed.

Lemma wrap_range (z : Z) : GoInt.in_range (GoInt.wrap z).
Proof.
  unfold GoInt.in_range, GoInt.MinInt, GoInt.MaxInt, GoInt.wrap.
  pose proof (Z.mod_pos_bound (z + 2 ^ 63) (2 ^ 64)). lia.
Qed.

Lemma wrap_add_wrap (a b : Z) : GoInt.wrap (GoInt.wrap a + b) = GoInt.wrap (a + b).
Proof.
  unfold GoInt.wrap. f_equal.
  replace ((a + 2 ^ 63) mod 2 ^ 64 - 2 ^ 63 + b + 2 ^ 63)
    with ((a + 2 ^ 63) mod 2 ^ 64 + b) by lia.
  rewrite Zplus_mod_idemp_l. f_equal. lia.
Qed.

(** ** The sizing decision *)

(** C1: the decision per database is one of the three strategies and follows
    the decision table: SingleFile exactly when the split is not forced and
    the total is at most the threshold, SplitSchemaData exactly when the split
    is forced and the total is at most the threshold, PerTableBatched exactly
    when the total exceeds the threshold, whatever the flag; the if-chain
    never falls through, and exactly one of the three conditions holds. *)
Theorem C1_plan_follows_decision_table (forceSplit : bool) (totalRowCount dbThreshold : Z) :
  (plan forceSplit totalRowCount dbThreshold = SingleFile
     <-> forceSplit = false /\ totalRowCount <= dbThreshold)
  /\ (plan forceSplit totalRowCount dbThreshold = SplitSchemaData
     <-> forceSplit = true /\ totalRowCount <= dbThreshold)
  /\ (plan forceSplit totalRowCount dbThreshold = PerTableBatched
     <-> totalRowCount > dbThreshold)
  /\ plan forceSplit totalRowCount dbThreshold <> NoBackup.
Proof.
  unfold plan.
  destruct forceSplit; simpl;
    destruct (Z.leb_spec totalRowCount dbThreshold) as [Hle | Hgt]; simpl.
  - repeat split; try discriminate; try tauto; intros; lia.
  - assert (Hgtb : (totalRowCount >? dbThreshold) = true)
      by (rewrite Z.gtb_ltb; apply Z.ltb_lt; lia).
    rewrite Hgtb. repeat split; try discriminate; intros; lia.
  - repeat split; try discriminate; try tauto; intros; lia.
  - assert (Hgtb : (totalRowCount >? dbThreshold) = true)
      by (rewrite Z.gtb_ltb; apply Z.ltb_lt; lia).
    rewrite Hgtb. repeat split; try discriminate; intros; lia.
Qed.

(** The first end-to-end scenario of the specification (60 rows, threshold
    1000, no forced split), its forced-split variant, and the second scenario
    (two million rows, threshold one million). *)
Lemma C1_plan_follows_decision_table_witness :
  plan false 60 1000 = SingleFile
  /\ plan true 60 1000 = SplitSchemaData
  /\ plan true 2000000 1000000 = PerTableBatched.
Proof.
  split; [| split].
  - apply (C1_plan_follows_decision_table false 60 1000). split; [done | lia].
  - apply (C1_plan_follows_decision_table true 60 1000). split; [done | lia].
  - apply (C1_plan_follows_decision_table true 2000000 1000000). lia.
Defined.

(** ** Database lists *)

Section Deduplication.

Implicit Types (l pre : list string) (x y v : string).

Lemma map_get_insert (m : gmap string bool) v x :
  map_get (<[v := true]> m) x = true <-> x = v \/ map_get m x = true.
Proof.
  unfold map_get. rewrite lookup_insert. case_decide; simpl.
  - subst. tauto.
  - split; [tauto | intros [-> | H']; congruence].
Qed.

Lemma index_of_app_elem x pre l : x ∈ pre -> index_of x (pre ++ l) = index_of x pre.
Proof.
  induction pre as [| a pre IH]; intros Hin; [by apply elem_of_nil in Hin |].
  simpl. case_bool_decide; [done |].
  apply elem_of_cons in Hin as [-> | Hin]; [done | by rewrite IH].
Qed.

Lemma index_of_fresh x pre : x ∉ pre -> index_of x (pre ++ [x]) = length pre.
Proof.
  induction pre as [| a pre IH]; intros Hnin; simpl.
  - by rewrite bool_decide_eq_true_2.
  - apply not_elem_of_cons in Hnin as [Hne Hnin].
    rewrite bool_decide_eq_false_2 by done. by rewrite IH.
Qed.

Lemma index_of_bound x pre : x ∈ pre -> (index_of x pre < length pre)%nat.
Proof.
  induction pre as [| a pre IH]; intros Hin; [by apply elem_of_nil in Hin |].
  simpl. case_bool_decide; [lia |].
  apply elem_of_cons in Hin as [-> | Hin]; [done | apply IH in Hin; lia].
Qed.

Lemma dedup_inv_init : dedup_inv [] (∅, []).
Proof.
  repeat split; simpl; try (intros H; by apply elem_of_nil in H).
  - unfold map_get. rewrite lookup_empty. discriminate.
  - constructor.
  - intros i j x y H. by rewrite lookup_nil in H.
Qed.

Lemma dedup_inv_step pre acc v :
  dedup_inv pre acc -> dedup_inv (pre ++ [v]) (dedup_step acc v).
Proof.
  destruct acc as [enc res]. intros (Henc & Hnd & Hmem & Hord); simpl in *.
  destruct (map_get enc v) eqn:Hv.
  - (* a duplicate: nothing is added *)
    assert (Hin : v ∈ pre) by by apply Henc.
    repeat split; simpl.
    + intros H. apply elem_of_app. left. by apply Henc.
    + intros [H | H%list_elem_of_singleton]%elem_of_app; apply Henc; by subst.
    + done.
    + intros H. apply elem_of_app. left. by apply Hmem.
    + intros [H | H%list_elem_of_singleton]%elem_of_app; apply Hmem; by subst.
    + intros i j x y Hi Hj Hlt.
      rewrite !index_of_app_elem; [by eapply Hord | |];
        apply Hmem; by eapply list_elem_of_lookup_2.
  - (* a new name: recorded and appended *)
    assert (Hnin : v ∉ pre) by (intros H%Henc; congruence).
    repeat split; simpl.
    + intros [-> | H]%map_get_insert; apply elem_of_app;
        [right; by apply list_elem_of_singleton | left; by apply Henc].
    + intros [H | H%list_elem_of_singleton]%elem_of_app; apply map_get_insert;
        [right; by apply Henc | by left].
    + apply NoDup_app. repeat split; [done | | apply NoDup_singleton].
      intros x Hx%Hmem Hx'%list_elem_of_singleton. by subst.
    + intros [H%Hmem | H]%elem_of_app; apply elem_of_app; [by left | by right].
    + intros [H | H]%elem_of_app; apply elem_of_app; [left; by apply Hmem | by right].
    + intros i j x y Hi Hj Hlt.
      assert (Hilt : (i < length res)%nat).
      { apply lookup_lt_Some in Hj. rewrite length_app in Hj. simpl in Hj. lia. }
      rewrite lookup_app_l in Hi by done.
      assert (Hx : x ∈ pre) by (apply Hmem; by eapply list_elem_of_lookup_2).
      rewrite (index_of_app_elem x) by done.
      destruct (decide (j < length res)%nat) as [Hjlt | Hjge].
      * rewrite lookup_app_l in Hj by done.
        rewrite index_of_app_elem; [by eapply Hord |].
        apply Hmem. by eapply list_elem_of_lookup_2.
      * rewrite lookup_app_r in Hj by lia.
        destruct (j - length res)%nat eqn:Hk; simpl in Hj; [| by rewrite lookup_nil in Hj].
        injection Hj as <-. rewrite index_of_fresh by done.
        by apply index_of_bound.
Qed.

Lemma dedup_inv_fold l : dedup_inv l (fold_left dedup_step l (∅, [])).
Proof.
  induction l as [| v l IH] using rev_ind; [apply dedup_inv_init |].
  rewrite fold_left_app. simpl. by apply dedup_inv_step.
Qed.

(** C6: deduplication keeps each name of the list once -- the result has no
    repetition and holds exactly the names of the list -- and lists the names
    in the order of their first occurrences; ["a","b","a"] yields ["a","b"]. *)
Theorem C6_removeDuplicates_first_occurrences (elements : list string) :
  NoDup (removeDuplicates elements)
  /\ (forall x, x ∈ removeDuplicates elements <-> x ∈ elements)
  /\ (forall (i j : nat) x y,
        removeDuplicates elements !! i = Some x ->
        removeDuplicates elements !! j = Some y ->
        (i < j)%nat -> (index_of x elements < index_of y elements)%nat)
  /\ removeDuplicates ["a"; "b"; "a"] = ["a"; "b"].
Proof.
  destruct (dedup_inv_fold elements) as (_ & Hnd & Hmem & Hord).
  repeat split; try done; apply Hmem.
Qed.

(** In the result for ["b","a","b","c","a"], b comes before c: b is first
    seen at position 0 of the list, c at position 3. *)
Lemma C6_removeDuplicates_first_occurrences_witness :
  removeDuplicates ["b"; "a"; "b"; "c"; "a"] = ["b"; "a"; "c"]
  /\ (index_of "b" ["b"; "a"; "b"; "c"; "a"]
      < index_of "c" ["b"; "a"; "b"; "c"; "a"])%nat.
Proof.
  split; [vm_compute; reflexivity |].
  destruct (C6_removeDuplicates_first_occurrences ["b"; "a"; "b"; "c"; "a"])
    as (_ & _ & Horder & _).
  apply (Horder 0%nat 2%nat); [vm_compute; reflexivity .. | lia].
Defined.

Lemma removeDuplicates_elem_of l x : x ∈ removeDuplicates l <-> x ∈ l.
Proof. apply (dedup_inv_fold l). Qed.

End Deduplication.

Section Difference.

Implicit Types (a b : list string) (x : string).

Lemma fold_insert_lookup b (m : gmap string bool) x :
  is_Some (fold_left (fun (mb : gmap string bool) y => <[y := true]> mb) b m !! x)
  <-> x ∈ b \/ is_Some (m !! x).
Proof.
  revert m. induction b as [| y b IH]; intros m; simpl.
  - split; [by right | intros [H%elem_of_nil | H]; done].
  - rewrite IH, lookup_insert_is_Some', elem_of_cons. intuition congruence.
Qed.

Lemma fold_append_filter (P : string -> Prop) `{!forall x, Decision (P x)}
  (f : list string -> string -> list string) a acc :
  (forall ab x, f ab x = if decide (P x) then ab ++ [x] else ab) ->
  fold_left f a acc = acc ++ filter P a.
Proof.
  intros Hf. revert acc. induction a as [| x a IH]; intros acc; simpl.
  - by rewrite app_nil_r.
  - rewrite IH, Hf, filter_cons. destruct (decide (P x)); [| done].
    by rewrite <- app_assoc.
Qed.

(** [difference a b] lists, in the order of [a], the elements of [a] that do
    not occur in [b]. *)
Lemma difference_filter a b : difference a b = filter (fun x => x ∉ b) a.
Proof.
  unfold difference.
  rewrite (fold_append_filter (fun x => x ∉ b)); [done |].
  intros ab x.
  pose proof (fold_insert_lookup b ∅ x) as Hmb.
  destruct (fold_left _ b ∅ !! x) eqn:Hx; destruct (decide (x ∉ b)) as [Hnin | Hin]; try done.
  - destruct Hmb as [[Hb | He] _]; [by eexists | done |].
    rewrite lookup_empty in He. by destruct He.
  - apply dec_stable in Hin. destruct Hmb as [_ Hmb].
    destruct Hmb as [? Hsome]; [by left | congruence].
Qed.

End Difference.

(** ** Blanks and commas in the option strings *)

Section OptionStrings.

Implicit Types (s old new : string) (cur : list ascii).

(** [+:+] does not unfold under [simpl]; these two equations are its
    definition. *)
Lemma append_cons (c : ascii) s1 s2 : String c s1 +:+ s2 = String c (s1 +:+ s2).
Proof. reflexivity. Qed.

Lemma append_empty s : "" +:+ s = s.
Proof. reflexivity. Qed.

Lemma HasPrefix_single (a c : ascii) s :
  GoStrings.HasPrefix (String c s) (String a "") = Ascii.eqb a c.
Proof. cbn [GoStrings.HasPrefix]. by destruct (Ascii.eqb a c). Qed.

Lemma replace_from_single (a c : ascii) new s :
  GoStrings.replace_from 0 (String a "") new (String c s) =
  if Ascii.eqb a c then new +:+ GoStrings.replace_from 0 (String a "") new s
  else String c (GoStrings.replace_from 0 (String a "") new s).
Proof. cbn [GoStrings.replace_from]. by rewrite HasPrefix_single. Qed.

Lemma split_from_single (a c : ascii) cur s :
  GoStrings.split_from 0 (String a "") cur (String c s) =
  if Ascii.eqb a c
  then string_of_list_ascii (rev cur) :: GoStrings.split_from 0 (String a "") [] s
  else GoStrings.split_from 0 (String a "") (c :: cur) s.
Proof. cbn [GoStrings.split_from]. by rewrite HasPrefix_single. Qed.

Lemma Replace_blank_app s1 s2 :
  GoStrings.Replace (s1 +:+ s2) " " "" =
  GoStrings.Replace s1 " " "" +:+ GoStrings.Replace s2 " " "".
Proof.
  unfold GoStrings.Replace. induction s1 as [| c s1 IH]; [done |].
  rewrite append_cons, !replace_from_single, IH.
  by destruct (Ascii.eqb " " c).
Qed.

Lemma Replace_blank_free s : blank_free (GoStrings.Replace s " " "") = true.
Proof.
  unfold GoStrings.Replace. induction s as [| c s IH]; [done |].
  rewrite replace_from_single. destruct (Ascii.eqb " " c) eqn:Hc; [done |].
  cbn [blank_free]. by rewrite Ascii.eqb_sym, Hc.
Qed.

Lemma HasPrefix_blank_free s old :
  blank_free s = true -> blank_free old = false -> GoStrings.HasPrefix s old = false.
Proof.
  revert s. induction old as [| a old IH]; intros s Hs Hold; [done |].
  destruct s as [| c s]; [done |]. cbn [GoStrings.HasPrefix blank_free] in *.
  destruct (Ascii.eqb a c) eqn:Hac; [| done].
  apply Ascii.eqb_eq in Hac as ->.
  apply andb_true_iff in Hs as [Hc Hs]. rewrite Hc in Hold. by apply IH.
Qed.

Lemma Replace_without_match s old new :
  blank_free s = true -> blank_free old = false -> GoStrings.Replace s old new = s.
Proof.
  intros Hs Hold. unfold GoStrings.Replace.
  induction s as [| c s IH]; [done |].
  cbn [GoStrings.replace_from]. rewrite HasPrefix_blank_free by done.
  cbn [blank_free] in Hs. apply andb_true_iff in Hs as [_ Hs]. by rewrite IH.
Qed.

(** After the first replacement no blank is left, so the three that follow
    find nothing to replace. *)
Lemma strip_blanks_Replace s : strip_blanks s = GoStrings.Replace s " " "".
Proof.
  unfold strip_blanks.
  rewrite (Replace_without_match _ " , ") by (apply Replace_blank_free || done).
  rewrite (Replace_without_match _ ", ") by (apply Replace_blank_free || done).
  rewrite (Replace_without_match _ " ,") by (apply Replace_blank_free || done).
  done.
Qed.

Lemma strip_blanks_app s1 s2 : strip_blanks (s1 +:+ s2) = strip_blanks s1 +:+ strip_blanks s2.
Proof. rewrite !strip_blanks_Replace. apply Replace_blank_app. Qed.

Lemma split_from_comma_app cur s1 s2 :
  GoStrings.split_from 0 "," cur (s1 +:+ "," +:+ s2) =
  GoStrings.split_from 0 "," cur s1 ++ GoStrings.split_from 0 "," [] s2.
Proof.
  revert cur. induction s1 as [| c s1 IH]; intros cur.
  - rewrite append_empty, append_cons, split_from_single. done.
  - rewrite append_cons, !split_from_single.
    destruct (Ascii.eqb "," c); by rewrite IH.
Qed.

Lemma Split_comma_app s1 s2 :
  GoStrings.Split (s1 +:+ "," +:+ s2) "," = GoStrings.Split s1 "," ++ GoStrings.Split s2 ",".
Proof. apply split_from_comma_app. Qed.

End OptionStrings.

(** ** The targets of an all-databases run *)

Section AllDatabases.

Variables (env : Env) (hostname bind username password : string).
Variables (databases excludeddatabases : string).
Variables (databasetreshold tablethreshold batchsize : Z) (forcesplit : bool).
Variables (additionals : string) (verbosity : Z) (mysqldumppath outputDirectory : string).
Variables (defaultsProvidedByUser : bool) (dailyrotation weeklyrotation montlyrotation : Z).

(** C5: in all-databases mode the targets are the databases of the server, in
    the server's order, without the names of the exclusion option and without
    information_schema and performance_schema, whatever the exclusion option
    says. *)
Theorem C5_all_databases_targets (st : State) (dbslist : list string) :
  strip_blanks databases = "--all-databases" ->
  query_databases env (trace st) = Some dbslist ->
  exists opts st',
    NewOptions env hostname bind username password databases excludeddatabases
      databasetreshold tablethreshold batchsize forcesplit additionals verbosity
      mysqldumppath outputDirectory defaultsProvidedByUser
      dailyrotation weeklyrotation montlyrotation st = (Returned opts, st')
    /\ Databases opts =
       filter (fun db => (db ∉ option_names excludeddatabases)
                         /\ db <> "information_schema"
                         /\ db <> "performance_schema") dbslist.
Proof.
  intros Hall Hquery. unfold NewOptions.
  rewrite Hall, bool_decide_eq_true_2 by done.
  unfold mbind, M_bind, GetDatabaseList, Now, pure. rewrite Hquery.
  eexists _, _. split; [reflexivity |]. cbn [Databases].
  rewrite difference_filter, strip_blanks_app.
  change (strip_blanks ",information_schema,performance_schema")
    with ("," +:+ "information_schema,performance_schema").
  rewrite Split_comma_app.
  change (GoStrings.Split "information_schema,performance_schema" ",")
    with ["information_schema"; "performance_schema"].
  apply list_filter_iff. intros db.
  rewrite removeDuplicates_elem_of, elem_of_app, !elem_of_cons, elem_of_nil.
  unfold option_names. tauto.
Qed.

End AllDatabases.

(** The example of the specification: the server holds mysql, test and app
    beside the two system schemas, the exclusion option names test. *)
Lemma C5_all_databases_targets_witness :
  exists opts st',
    NewOptions env_quiet "localhost" "3306" "root" "1234" "--all-databases" "test"
      10000000 5000000 1000000 false "" 2 "/usr/bin/mysqldump" "/backup" true
      5 2 1 state_start = (Returned opts, st')
    /\ Databases opts = ["mysql"; "app"].
Proof.
  destruct (C5_all_databases_targets env_quiet "localhost" "3306" "root" "1234"
              "--all-databases" "test" 10000000 5000000 1000000 false "" 2
              "/usr/bin/mysqldump" "/backup" true 5 2 1 state_start
              ["information_schema"; "mysql"; "performance_schema"; "test"; "app"]
              eq_refl eq_refl) as (opts & st' & Hrun & Hdbs).
  exists opts, st'. split; [exact Hrun |].
  rewrite Hdbs. vm_compute. reflexivity.
Defined.

(** Without an exclusion option the two system schemas are still left out. *)
Lemma all_databases_without_exclusions :
  match (GetOptions env_quiet flags_nothing_excluded state_start).1 with
  | Returned opts => Databases opts = ["mysql"; "test"; "app"]
  | _ => False
  end.
Proof. vm_compute. reflexivity. Qed.

(** ** The failure policy *)

Section FailFast.

Context (env : Env) (test : bool).

Lemma disciplined_silent {A : Type} (m : M A) :
  (forall st, trace (m st).2 = trace st) ->
  (forall st code, (m st).1 <> Exited code) ->
  disciplined test m.
Proof.
  intros Htrace Hout st. exists []. split; [apply Htrace |].
  left. split; [constructor | apply Hout].
Qed.

Lemma disciplined_pure {A : Type} (a : A) : disciplined test (pure a).
Proof. by apply disciplined_silent. Qed.

Lemma disciplined_out_of_fuel {A : Type} : disciplined test (@out_of_fuel A).
Proof. by apply disciplined_silent. Qed.

Lemma disciplined_Now : disciplined test (Now env).
Proof. by apply disciplined_silent. Qed.




(** A call whose failure the program ignores. *)
Lemma disciplined_os_call op p :
  checked op = false -> op <> OpStatIsNotExist -> disciplined test (os_call env op p).
Proof.
  intros Hop Hstat st. exists [EvOs op p (os_result env (trace st) op p)].
  split; [done |]. left. split; [| done]. constructor; [| constructor].
  unfold harmless. cbn. rewrite Hop. by destruct op.
Qed.

Lemma disciplined_bind {A B : Type} (m : M A) (k : A -> M B) :
  disciplined test m -> (forall a, disciplined test (k a)) -> disciplined test (m ≫= k).
Proof.
  intros Hm Hk st. unfold mbind, M_bind.
  destruct (Hm st) as (new1 & Htrace1 & Hff1).
  destruct (m st) as [[a | code | |] st1] eqn:Hrun; simpl in *.
  - destruct (Hk a st1) as (new2 & Htrace2 & Hff2).
    exists (new2 ++ new1). split; [by rewrite Htrace2, Htrace1, app_assoc |].
    destruct Hff1 as [[Hclean1 _] | [(e & earlier & c & _ & _ & Hout & _)
                                    | (_ & exe & earlier & _ & Hout & _)]];
      [| done | done].
    destruct Hff2 as [[Hclean2 Hout2] | [(e & earlier & c & -> & Hfatal & Hout & Hclean2)
                                        | (Htest & exe & earlier & -> & Hout & Hclean2)]].
    + left. split; [by apply Forall_app | done].
    + right; left. exists e, (earlier ++ new1), c. repeat split; try done.
      by apply Forall_app.
    + right; right. split; [done |]. exists exe, (earlier ++ new1).
      repeat split; try done. by apply Forall_app.
  - exists new1. split; [done |].
    destruct Hff1 as [[_ Hout] | [(e & earlier & c & -> & Hfatal & [= ->] & Hclean1)
                                 | (Htest & exe & earlier & -> & [= ->] & Hclean1)]].
    + by destruct (Hout code).
    + right; left. by exists e, earlier, c.
    + right; right. split; [done |]. by exists exe, earlier.
  - exists new1. split; [done |].
    destruct Hff1 as [[Hclean1 _] | [(e & earlier & c & _ & _ & Hout & _)
                                    | (_ & exe & earlier & _ & Hout & _)]];
      [by left | done | done].
  - exists new1. split; [done |].
    destruct Hff1 as [[Hclean1 _] | [(e & earlier & c & _ & _ & Hout & _)
                                    | (_ & exe & earlier & _ & Hout & _)]];
      [by left | done | done].
Qed.

Lemma disciplined_for_each {A : Type} (xs : list A) (body : A -> M unit) :
  (forall x, disciplined test (body x)) -> disciplined test (for_each xs body).
Proof.
  intros Hbody. induction xs as [| x xs IH]; simpl.
  - apply disciplined_pure.
  - apply disciplined_bind; [apply Hbody | intros _; apply IH].
Qed.

End FailFast.

Section FailFastProgram.

Context (env : Env).

Lemma history_cons (e : Event) (l new old : list Event) :
  l = new ++ old -> e :: l = (e :: new) ++ old.
Proof. by intros ->. Qed.

(** Finds the events a computation has added in front of a history. *)
Ltac added_events :=
  repeat (eapply history_cons); symmetry; apply app_nil_l.

(** The steps after which the program is about to leave with status 4 are
    exactly the failures; every branch of the shared tail obeys the policy. *)
Lemma disciplined_dump_and_archive test options args filename :
  disciplined test (dump_and_archive env options args filename).
Proof.
  intros st.
  unfold dump_and_archive, Compress, run_command, os_call, os_Exit, pure,
    mbind, M_bind, emit.
  cbn [ticks trace].
  destruct (bool_decide (dump_stderr env (trace st) (MySQLDumpPath options) args = ""))
    eqn:Hquiet; cbn [negb];
    repeat match goal with
      | |- context [os_result ?e ?h ?o ?p] =>
          destruct (os_result e h o p) eqn:?; cbn [negb fst snd trace]
      end;
    (eexists; split; [cbn [fst snd trace]; added_events |]);
    cbn [fst snd];
    first [ left; split; [repeat constructor; cbn; by rewrite ?Hquiet | done]
          | right; left; do 3 eexists; split; [reflexivity |];
            split; [unfold fatal_code; cbn; rewrite ?Hquiet; reflexivity |];
            split; [reflexivity |];
            repeat constructor; cbn; by rewrite ?Hquiet ].
Qed.

Lemma disciplined_close_archive test archive :
  disciplined test (close_archive env archive).
Proof.
  unfold close_archive.
  do 3 (apply disciplined_bind; [by apply disciplined_os_call | intros _]).
  apply disciplined_pure.
Qed.

Lemma disciplined_table_batch test options db table index counter :
  disciplined test (table_batch env options db table index counter).
Proof.
  unfold table_batch.
  apply disciplined_bind; [apply disciplined_Now | intros t].
  apply disciplined_bind; [by apply disciplined_os_call | intros _].
  apply disciplined_bind; [apply disciplined_dump_and_archive | intros _].
  apply disciplined_pure.
Qed.

Lemma disciplined_batch_loop test fuel options db table index counter deferred :
  disciplined test (batch_loop fuel env options db table index counter deferred).
Proof.
  revert index counter deferred.
  induction fuel as [| fuel IH]; intros index counter deferred; simpl.
  - apply disciplined_out_of_fuel.
  - destruct (counter <=? RowCount table); [| apply disciplined_pure].
    apply disciplined_bind; [apply disciplined_table_batch | intros archive; apply IH].
Qed.









End FailFastProgram.

(** A failing [file.Stat] is not a failure for [Compress]: it returns [nil]
    without having written the archive, and the run goes on. *)
Lemma Compress_without_stat (env : Env) (p : string) (st : State) :
  os_result env (trace st) OpOpen p = true ->
  os_result env (EvOs OpOpen p true :: trace st) OpFileStat p = false ->
  Compress env p st
  = (Returned true,
     {| ticks := ticks st;
        trace := EvOs OpFileStat p false :: EvOs OpOpen p true :: trace st |}).
Proof.
  intros Hopen Hstat. unfold Compress, os_call, pure, mbind, M_bind, emit.
  cbn [ticks trace]. rewrite Hopen. cbv beta iota delta [negb].
  cbn [ticks trace]. by rewrite Hstat.
Qed.

(** The dump executable reported missing: the run ends at once, with
    status 1. *)
Lemma missing_executable_exits_with_1 :
  main 5 env_no_executable flags_sales state_start
  = (Exited 1,
     {| ticks := 0;
        trace := [EvOs OpStatIsNotExist "/usr/bin/mysqldump" false] |}).
Proof. vm_compute. reflexivity. Qed.




(** ** The batching loop *)

Section BatchLoop.

Context (env : Env) (options : Options) (db : string) (table : Table).

Local Abbreviation r := (RowCount table).
Local Abbreviation b := (BatchSize options).

Lemma dumped_cons_os op p ok history :
  dumped (EvOs op p ok :: history) = dumped history.
Proof. unfold dumped. simpl. rewrite omap_app. simpl. by rewrite app_nil_r. Qed.

Lemma dumped_cons_dump exe args err history :
  dumped (EvDump exe args err :: history) = dumped history ++ [args].
Proof. unfold dumped. simpl. by rewrite omap_app. Qed.

Lemma dumped_app new old : dumped (new ++ old) = dumped old ++ dumped new.
Proof. unfold dumped. by rewrite rev_app_distr, omap_app. Qed.

(** The deferred calls of an archive, and of a stack of archives: they
    return in every environment, and neither dump nor read the clock. *)
Lemma close_archive_returns archive st :
  exists st',
    close_archive env archive st = (Returned tt, st')
    /\ ticks st' = ticks st /\ dumped (trace st') = dumped (trace st).
Proof.
  unfold close_archive, os_call, pure, mbind, M_bind, emit.
  eexists. split; [reflexivity |]. split; [reflexivity |].
  cbn [trace]. by rewrite !dumped_cons_os.
Qed.

Lemma close_all_returns (archives : list string) st :
  exists st',
    for_each archives (close_archive env) st = (Returned tt, st')
    /\ ticks st' = ticks st /\ dumped (trace st') = dumped (trace st).
Proof.
  revert st. induction archives as [| archive archives IH]; intros st.
  - by exists st.
  - cbn [for_each]. unfold mbind, M_bind.
    destruct (close_archive_returns archive st) as (st1 & -> & Hticks1 & Hdumped1).
    destruct (IH st1) as (st' & -> & Hticks & Hdumped).
    exists st'. split; [done |]. split; congruence.
Qed.

(** One turn when no step fails that the program acts on: it returns the
    archive it has made, after one reading of the clock and one dump,
    whether [os.Mkdir] and [file.Stat] succeed or not. *)
Lemma table_batch_quiet index counter st :
  all_succeed env ->
  exists st',
    table_batch env options db table index counter st
    = (Returned (batch_filename options (time_Now env (ticks st)) db table index
                   +:+ ".tar.gz"), st')
    /\ ticks st' = S (ticks st)
    /\ dumped (trace st') =
       dumped (trace st)
         ++ [batch_args options (time_Now env (ticks st)) db table index counter].
Proof.
  intros [Hdump Hos].
  pose proof (fun h p => Hos h OpCreate p eq_refl) as Hcreate.
  pose proof (fun h p => Hos h OpOpen p eq_refl) as Hopen.
  pose proof (fun h p => Hos h OpWriteHeader p eq_refl) as Hheader.
  pose proof (fun h p => Hos h OpCopy p eq_refl) as Hcopy.
  pose proof (fun h p => Hos h OpRemove p eq_refl) as Hremove.
  unfold table_batch, dump_and_archive, Compress, run_command, os_call, Now, pure,
    mbind, M_bind, emit.
  cbn [ticks trace].
  repeat first
    [ progress (rewrite ?Hcreate, ?Hopen, ?Hheader, ?Hcopy, ?Hremove, ?Hdump,
                  ?(bool_decide_eq_true_2 ("" = "") eq_refl);
                cbv beta iota delta [negb]; cbn [ticks trace])
    | match goal with
      | |- context [os_result ?e ?h OpFileStat ?p] =>
          destruct (os_result e h OpFileStat p); cbv beta iota delta [negb];
          cbn [ticks trace]
      end ];
    (eexists; split; [reflexivity |]; split; [reflexivity |]);
    cbn [trace]; by rewrite !dumped_cons_os, dumped_cons_dump, dumped_cons_os.
Qed.

(** One turn in any environment: it returns or leaves with status 4. *)
Lemma table_batch_ends index counter st :
  (exists archive,
     (table_batch env options db table index counter st).1 = Returned archive)
  \/ (table_batch env options db table index counter st).1 = Exited 4.
Proof.
  unfold table_batch, dump_and_archive, Compress, run_command, os_call, os_Exit, Now,
    pure, mbind, M_bind, emit.
  cbv beta iota.
  destruct (bool_decide (dump_stderr _ _ _ _ = ""));
    cbv beta iota delta [negb fst]; [| by right].
  repeat match goal with
    | |- context [os_result ?e ?h ?o ?p] =>
        destruct (os_result e h o p); cbv beta iota delta [negb fst]
    end; eauto.
Qed.

(** The loop leaves a turn only by returning from it: while the counters it
    reaches stay at or below the row count, it does not return. *)
Lemma batch_loop_keeps_running fuel index counter deferred st :
  (forall k : nat, (k < fuel)%nat ->
     Nat.iter k (fun c => GoInt.add c b) counter <= r) ->
  forall left_with,
    (batch_loop fuel env options db table index counter deferred st).1
    <> Returned left_with.
Proof.
  revert index counter deferred st.
  induction fuel as [| fuel IH]; intros index counter deferred st Hle left_with.
  - discriminate.
  - cbn [batch_loop].
    assert (Hnow : counter <= r) by (apply (Hle O); lia).
    apply Z.leb_le in Hnow. rewrite Hnow. unfold mbind, M_bind.
    destruct (table_batch env options db table index counter st) as [[archive | | |] st1];
      try discriminate.
    apply IH. intros k Hk. pose proof (Hle (S k) ltac:(lia)) as Hnext.
    by rewrite Nat.iter_succ_r in Hnext.
Qed.

Lemma generateTableBackup_keeps_running fuel st :
  (forall k : nat, (k < fuel)%nat -> Nat.iter k (fun c => GoInt.add c b) 0 <= r) ->
  (generateTableBackup fuel env options db table st).1 <> Returned tt.
Proof.
  intros Hle. unfold generateTableBackup, mbind, M_bind.
  pose proof (batch_loop_keeps_running fuel 1 0 [] st Hle) as Hloop.
  destruct (batch_loop fuel env options db table 1 0 [] st) as [[deferred | | |] st1];
    try discriminate.
  by destruct (Hloop deferred).
Qed.

(** When no step fails the loop never leaves through [os.Exit]. *)
Lemma batch_loop_quiet_outcome fuel index counter deferred st :
  all_succeed env ->
  (exists left_with,
     (batch_loop fuel env options db table index counter deferred st).1
     = Returned left_with)
  \/ (batch_loop fuel env options db table index counter deferred st).1 = OutOfFuel.
Proof.
  intros Hquiet. revert index counter deferred st.
  induction fuel as [| fuel IH]; intros index counter deferred st; [by right |].
  cbn [batch_loop]. destruct (counter <=? r); [| left; by eexists].
  unfold mbind, M_bind.
  destruct (table_batch_quiet index counter st Hquiet) as (st1 & -> & _). apply IH.
Qed.

Lemma generateTableBackup_quiet_outcome fuel st :
  all_succeed env ->
  (generateTableBackup fuel env options db table st).1 = Returned tt
  \/ (generateTableBackup fuel env options db table st).1 = OutOfFuel.
Proof.
  intros Hquiet. unfold generateTableBackup, mbind, M_bind.
  pose proof (batch_loop_quiet_outcome fuel 1 0 [] st Hquiet) as Hloop.
  destruct (batch_loop fuel env options db table 1 0 [] st) as [[deferred | | |] st1];
    cbn [fst] in Hloop.
  - destruct (close_all_returns deferred st1) as (st' & -> & _). by left.
  - destruct Hloop as [[? Hloop] | Hloop]; discriminate.
  - destruct Hloop as [[? Hloop] | Hloop]; discriminate.
  - by right.
Qed.

End BatchLoop.

Section BatchWindows.

Context (env : Env) (options : Options) (db : string) (table : Table).

Local Abbreviation r := (RowCount table).
Local Abbreviation b := (BatchSize options).

(** The dump of window [k] of a loop entered with [index] and [counter] at
    clock reading [tick]. *)
Local Abbreviation window tick index counter :=
  (fun k : nat =>
     batch_args options (time_Now env (tick + k)) db table (index + Z.of_nat k)
       (counter + Z.of_nat k * b)).

Lemma add_no_wrap (x y : Z) : GoInt.in_range (x + y) -> GoInt.add x y = x + y.
Proof. apply wrap_in_range. Qed.

(** The first [n] turns of a loop whose counter stays at or below the row
    count for [n] turns: each makes its dump, and the loop goes on with the
    index and the counter that the last additions leave, wrapped around or
    not. *)
Lemma batch_loop_unroll (n : nat) :
  forall fuel index counter deferred st,
    all_succeed env -> 0 < b ->
    GoInt.in_range counter -> GoInt.in_range index -> r <= GoInt.MaxInt ->
    ((0 < n)%nat -> counter + (Z.of_nat n - 1) * b <= r) ->
    exists st' deferred',
      batch_loop (n + fuel) env options db table index counter deferred st
      = batch_loop fuel env options db table
          (GoInt.wrap (index + Z.of_nat n)) (GoInt.wrap (counter + Z.of_nat n * b))
          deferred' st'
      /\ ticks st' = (ticks st + n)%nat
      /\ dumped (trace st') =
         dumped (trace st)
           ++ map (fun k : nat =>
                     batch_args options (time_Now env (ticks st + k)) db table
                       (GoInt.wrap (index + Z.of_nat k)) (counter + Z.of_nat k * b))
                (seq 0 n).
Proof.
  induction n as [| n IH];
    intros fuel index counter deferred st Hquiet Hb Hcounter Hindex Hr Hlast.
  - exists st, deferred. rewrite !Z.add_0_r, !wrap_in_range by done.
    split; [done |]. split; [lia |]. simpl. by rewrite app_nil_r.
  - cbn [Nat.add batch_loop].
    specialize (Hlast ltac:(lia)). rewrite Nat2Z.inj_succ in Hlast.
    pose proof Hr as Hr'. pose proof Hcounter as Hcounter'.
    unfold GoInt.in_range, GoInt.MinInt, GoInt.MaxInt in Hcounter', Hr'.
    assert (Hle : (counter <=? r) = true) by (apply Z.leb_le; nia).
    rewrite Hle. unfold mbind, M_bind.
    destruct (table_batch_quiet env options db table index counter st Hquiet)
      as (st1 & -> & Hticks & Hdumped).
    assert (Hlast' : (0 < n)%nat ->
                     GoInt.add counter b + (Z.of_nat n - 1) * b <= r).
    { intros Hn. rewrite add_no_wrap; [nia |].
      unfold GoInt.in_range, GoInt.MinInt, GoInt.MaxInt. nia. }
    destruct (IH fuel (GoInt.add index 1) (GoInt.add counter b)
                ((batch_filename options (time_Now env (ticks st)) db table index
                    +:+ ".tar.gz") :: deferred) st1 Hquiet Hb
                (wrap_range _) (wrap_range _) Hr Hlast')
      as (st' & deferred' & -> & Hticks' & Hdumped').
    exists st', deferred'. unfold GoInt.add. rewrite !wrap_add_wrap.
    split; [f_equal; f_equal; lia |]. split; [lia |].
    rewrite Hdumped', Hdumped, <- app_assoc. f_equal.
    cbn [seq map app]. f_equal.
    { rewrite Z.add_0_r, wrap_in_range by done. f_equal; [f_equal; lia | lia]. }
    rewrite <- seq_shift, map_map.
    destruct n as [| n]; [done |].
    unfold GoInt.add. rewrite (wrap_in_range (counter + b))
      by (unfold GoInt.in_range, GoInt.MinInt, GoInt.MaxInt; nia).
    apply map_ext. intros k. rewrite Hticks, wrap_add_wrap.
    f_equal; [f_equal; lia | f_equal; lia | lia].
Qed.

(** A loop with [n] turns ahead of it and no overflow on the way takes
    exactly these turns, given at least [n + 1] units of fuel. *)
Lemma batch_loop_windows (n : nat) :
  forall fuel index counter deferred st,
    all_succeed env -> 0 < b -> (n < fuel)%nat ->
    GoInt.in_range counter -> GoInt.in_range index ->
    r < counter + Z.of_nat n * b ->
    ((0 < n)%nat -> counter + (Z.of_nat n - 1) * b <= r) ->
    counter + Z.of_nat n * b <= GoInt.MaxInt ->
    ((0 < n)%nat -> index + Z.of_nat n - 1 <= GoInt.MaxInt) ->
    exists st' deferred',
      batch_loop fuel env options db table index counter deferred st
      = (Returned deferred', st')
      /\ ticks st' = (ticks st + n)%nat
      /\ dumped (trace st') =
         dumped (trace st) ++ map (window (ticks st) index counter) (seq 0 n).
Proof.
  intros fuel index counter deferred st Hquiet Hb Hfuel Hcounter Hindex Hexit Hlast
    Hmax Himax.
  replace fuel with (n + S (fuel - n - 1))%nat by lia.
  assert (Hr : r <= GoInt.MaxInt) by lia.
  destruct (batch_loop_unroll n (S (fuel - n - 1)) index counter deferred st
              Hquiet Hb Hcounter Hindex Hr Hlast)
    as (st' & deferred' & -> & Hticks & Hdumped).
  exists st', deferred'. split; [| split; [done |]].
  - cbn [batch_loop].
    unfold GoInt.in_range, GoInt.MinInt, GoInt.MaxInt in *.
    rewrite (wrap_in_range (counter + _))
      by (unfold GoInt.in_range, GoInt.MinInt, GoInt.MaxInt; nia).
    assert (Hgt : (counter + Z.of_nat n * b <=? r) = false) by (apply Z.leb_gt; lia).
    by rewrite Hgt.
  - rewrite Hdumped. f_equal. apply map_ext_in. intros k Hk%in_seq.
    rewrite wrap_in_range; [done |].
    unfold GoInt.in_range, GoInt.MinInt, GoInt.MaxInt in *. lia.
Qed.

(** The table's loop and the deferred calls after it. *)
Lemma generateTableBackup_windows (n : nat) (fuel : nat) (st : State) :
  all_succeed env -> 0 < b -> (n < fuel)%nat ->
  r < Z.of_nat n * b ->
  ((0 < n)%nat -> (Z.of_nat n - 1) * b <= r) ->
  Z.of_nat n * b <= GoInt.MaxInt ->
  Z.of_nat n <= GoInt.MaxInt ->
  exists st',
    generateTableBackup fuel env options db table st = (Returned tt, st')
    /\ ticks st' = (ticks st + n)%nat
    /\ dumped (trace st') =
       dumped (trace st) ++ map (window (ticks st) 1 0) (seq 0 n).
Proof.
  intros Hquiet Hb Hfuel Hexit Hlast Hmax Hn.
  unfold generateTableBackup, mbind, M_bind.
  destruct (batch_loop_windows n fuel 1 0 [] st)
    as (st1 & deferred & -> & Hticks1 & Hdumped1); try done;
    try (unfold GoInt.in_range, GoInt.MinInt, GoInt.MaxInt in *; lia).
  destruct (close_all_returns env deferred st1) as (st' & -> & Hticks & Hdumped).
  exists st'. split; [done |]. split; congruence.
Qed.

(** The same loop in any environment: it returns or leaves with status 4;
    its fuel does not run out. *)
Lemma batch_loop_ends (n : nat) :
  forall fuel index counter deferred st,
    0 < b -> (n < fuel)%nat ->
    GoInt.MinInt <= counter -> r < counter + Z.of_nat n * b ->
    counter + Z.of_nat n * b <= GoInt.MaxInt ->
    (exists left_with,
       (batch_loop fuel env options db table index counter deferred st).1
       = Returned left_with)
    \/ (batch_loop fuel env options db table index counter deferred st).1 = Exited 4.
Proof.
  induction n as [| n IH];
    intros fuel index counter deferred st Hb Hfuel Hmin Hexit Hmax;
    (destruct fuel as [| fuel]; [lia |]); cbn [batch_loop].
  - assert (Hgt : (counter <=? r) = false) by (apply Z.leb_gt; lia).
    rewrite Hgt. left. by eexists.
  - destruct (counter <=? r); [| left; by eexists]. unfold mbind, M_bind.
    pose proof (table_batch_ends env options db table index counter st) as Hturn.
    destruct (table_batch env options db table index counter st)
      as [[archive | | |] st1]; simpl in Hturn;
      try (destruct Hturn as [[? Hturn] | Hturn]; discriminate).
    + assert (Hcounter : GoInt.add counter b = counter + b).
      { apply add_no_wrap. unfold GoInt.in_range. nia. }
      rewrite Hcounter. apply IH; try done; try lia; nia.
    + destruct Hturn as [[? Hturn] | Hturn]; [discriminate |].
      injection Hturn as ->. by right.
Qed.

Lemma generateTableBackup_ends (n : nat) (fuel : nat) (st : State) :
  0 < b -> (n < fuel)%nat -> r < Z.of_nat n * b -> Z.of_nat n * b <= GoInt.MaxInt ->
  (generateTableBackup fuel env options db table st).1 = Returned tt
  \/ (generateTableBackup fuel env options db table st).1 = Exited 4.
Proof.
  intros Hb Hfuel Hexit Hmax. unfold generateTableBackup, mbind, M_bind.
  assert (Hloop : (exists left_with,
                     (batch_loop fuel env options db table 1 0 [] st).1
                     = Returned left_with)
                  \/ (batch_loop fuel env options db table 1 0 [] st).1 = Exited 4).
  { apply (batch_loop_ends n); try done; unfold GoInt.MinInt; lia. }
  destruct (batch_loop fuel env options db table 1 0 [] st) as [[deferred | | |] st1];
    cbn [fst] in Hloop.
  - destruct (close_all_returns env deferred st1) as (st' & -> & _). by left.
  - destruct Hloop as [[? Hloop] | Hloop]; [discriminate |].
    injection Hloop as ->. by right.
  - destruct Hloop as [[? Hloop] | Hloop]; discriminate.
  - destruct Hloop as [[? Hloop] | Hloop]; discriminate.
Qed.

(** The loop and the deferred calls after it only add to the history. *)
Lemma loop_and_closes_extend fuel index counter deferred st :
  exists new,
    trace ((batch_loop fuel env options db table index counter deferred
              ≫= fun deferred => for_each deferred (close_archive env)) st).2
    = new ++ trace st.
Proof.
  destruct (disciplined_bind false _ _
              (disciplined_batch_loop env false fuel options db table index counter
                 deferred)
              (fun deferred =>
                 disciplined_for_each false deferred (close_archive env)
                   (disciplined_close_archive env false))
              st) as (new & Htrace & _).
  by exists new.
Qed.

(** A loop whose counter wraps around after [n] turns takes at least one
    turn more. *)
Lemma generateTableBackup_overflow (n : nat) (fuel : nat) (st : State) :
  all_succeed env -> 0 < b -> b <= GoInt.MaxInt -> 0 <= r -> r <= GoInt.MaxInt ->
  (n < fuel)%nat -> (0 < n)%nat ->
  (Z.of_nat n - 1) * b <= r ->
  GoInt.MaxInt < Z.of_nat n * b ->
  (length (dumped (trace st)) + n
   < length (dumped (trace (generateTableBackup fuel env options db table st).2)))%nat.
Proof.
  intros Hquiet Hb Hbmax Hr Hrmax Hfuel Hn Hlast Hover.
  unfold generateTableBackup, mbind at 1, M_bind at 1.
  replace fuel with (n + S (fuel - n - 1))%nat by lia.
  assert (Hzero : GoInt.in_range 0)
    by (unfold GoInt.in_range, GoInt.MinInt, GoInt.MaxInt; lia).
  assert (Hone : GoInt.in_range 1)
    by (unfold GoInt.in_range, GoInt.MinInt, GoInt.MaxInt; lia).
  destruct (batch_loop_unroll n (S (fuel - n - 1)) 1 0 [] st Hquiet Hb Hzero Hone
              Hrmax ltac:(lia))
    as (st1 & deferred1 & -> & Hticks1 & Hdumped1).
  unfold GoInt.MaxInt in *.
  cbn [batch_loop].
  assert (Hwrapped : GoInt.wrap (0 + Z.of_nat n * b) = Z.of_nat n * b - 2 ^ 64).
  { unfold GoInt.wrap.
    replace (0 + Z.of_nat n * b + 2 ^ 63)
      with ((Z.of_nat n * b - 2 ^ 63) + 1 * 2 ^ 64) by lia.
    rewrite Z_mod_plus_full, Z.mod_small; nia. }
  rewrite Hwrapped.
  assert (Hle : (Z.of_nat n * b - 2 ^ 64 <=? r) = true) by (apply Z.leb_le; nia).
  rewrite Hle. unfold mbind at 1, M_bind at 1.
  destruct (table_batch_quiet env options db table (GoInt.wrap (1 + Z.of_nat n))
              (Z.of_nat n * b - 2 ^ 64) st1 Hquiet) as (st2 & -> & _ & Hdumped2).
  match goal with
  | |- context [batch_loop ?f env options db table ?i ?c ?d ?s] =>
      destruct (loop_and_closes_extend f i c d s) as (new & Htrace)
  end.
  unfold mbind, M_bind in Htrace. rewrite Htrace, dumped_app, Hdumped2, Hdumped1.
  rewrite !length_app, length_map, length_seq. simpl. lia.
Qed.

End BatchWindows.

Lemma env_quiet_all_succeed : all_succeed env_quiet.
Proof. by split. Qed.

(** The number of turns of a loop that runs from 0 in steps of [b] while the
    counter is at most [r]. *)
Lemma turns_bounds (r b : Z) :
  0 <= r -> 0 < b ->
  r < (r / b + 1) * b /\ (r / b) * b <= r /\ 0 <= r / b <= r.
Proof.
  intros Hr Hb. pose proof (Z.div_mod r b ltac:(lia)) as Hdm.
  pose proof (Z.mod_pos_bound r b Hb) as Hmod.
  assert (0 <= r / b) by (apply Z.div_pos; lia).
  assert (r / b <= r) by (apply Z.div_le_upper_bound; nia).
  nia.
Qed.

(** C2 (as amended): for a row count [r >= 0] and a batch size [b > 0], when
    no dump writes to its standard error and no archive step fails whose
    error the program checks:
    - if the first offset beyond [r], [(floor(r/b) + 1) * b], is within Go's
      [int], the batching loop returns after exactly [floor(r/b) + 1] dumps,
      for the windows at offsets 0, b, 2b, ... numbered from 1;
    - if that offset is beyond the largest [int], the counter wraps around
      to a negative number and the loop makes more than [floor(r/b) + 1]
      dumps. *)
Theorem C2_batch_windows (fuel : nat) (env : Env) (options : Options) (db : string)
  (table : Table) (st : State) :
  all_succeed env ->
  0 <= RowCount table -> 0 < BatchSize options ->
  RowCount table / BatchSize options + 1 < Z.of_nat fuel ->
  ((RowCount table / BatchSize options + 1) * BatchSize options <= GoInt.MaxInt ->
   exists st',
     generateTableBackup fuel env options db table st = (Returned tt, st')
     /\ dumped (trace st') =
        dumped (trace st)
          ++ map (fun k : nat =>
                    batch_args options (time_Now env (ticks st + k)) db table
                      (1 + Z.of_nat k) (Z.of_nat k * BatchSize options))
               (seq 0 (Z.to_nat (RowCount table / BatchSize options + 1)))
     /\ length (dumped (trace st')) =
        (length (dumped (trace st))
         + Z.to_nat (RowCount table / BatchSize options + 1))%nat)
  /\ (GoInt.MaxInt < (RowCount table / BatchSize options + 1) * BatchSize options ->
      RowCount table <= GoInt.MaxInt -> BatchSize options <= GoInt.MaxInt ->
      (length (dumped (trace st))
       + Z.to_nat (RowCount table / BatchSize options + 1)
       < length (dumped (trace (generateTableBackup fuel env options db table st).2)))%nat).
Proof.
  intros Hquiet Hr Hb Hfuel.
  destruct (turns_bounds _ _ Hr Hb) as (Hexit & Hlast & Hq).
  set (n := Z.to_nat (RowCount table / BatchSize options + 1)).
  assert (Hn : Z.of_nat n = RowCount table / BatchSize options + 1) by lia.
  assert (Hfuel' : (n < fuel)%nat) by lia.
  assert (Hlast' : (Z.of_nat n - 1) * BatchSize options <= RowCount table)
    by (rewrite Hn; nia).
  rewrite <- Hn in Hexit |- *.
  split.
  - intros Hmax.
    assert (Hnmax : Z.of_nat n <= GoInt.MaxInt) by (unfold GoInt.MaxInt in *; nia).
    destruct (generateTableBackup_windows env options db table n fuel st
                Hquiet Hb Hfuel' Hexit (fun _ => Hlast') Hmax Hnmax)
      as (st' & Hrun & _ & Hdumped).
    exists st'. split; [exact Hrun |]. split.
    + rewrite Hdumped. f_equal.
    + rewrite Hdumped, length_app, length_map, length_seq. done.
  - intros Hover Hrmax Hbmax.
    apply generateTableBackup_overflow; try done. lia.
Qed.

(** The second end-to-end scenario of the specification on a disk that keeps
    what is made on it, so that [os.Mkdir] fails from the second batch on:
    two million rows in batches of 500000 give five dumps.  And one row with
    the largest batch size an [int] holds: the first offset beyond the row
    count is the largest [int], and the loop returns after its one dump. *)
Lemma C2_batch_windows_witness :
  ~ (forall history op p, os_result env_real_mkdir history op p = true)
  /\ (exists st',
        generateTableBackup 10 env_real_mkdir (options_with_batch 500000) "sales"
          (NewTable "orders" 2000000) state_start = (Returned tt, st')
        /\ length (dumped (trace st')) = 5%nat
        /\ map snd (calls OpMkdir (trace st')) = [true; false; false; false; false])
  /\ (exists st',
        generateTableBackup 3 env_quiet (options_with_batch (2 ^ 63 - 1)) "sales"
          (NewTable "orders" 1) state_start = (Returned tt, st')
        /\ length (dumped (trace st')) = 1%nat).
Proof.
  split; [| split].
  - intros Hall.
    specialize (Hall [EvOs OpMkdir "/backup" true] OpMkdir "/backup"). discriminate.
  - destruct (C2_batch_windows 10 env_real_mkdir (options_with_batch 500000) "sales"
                (NewTable "orders" 2000000) state_start) as [Hwindows _].
    { split; [done |]. intros history op p Hop. by destruct op. }
    { vm_compute. congruence. }
    { reflexivity. }
    { vm_compute. congruence. }
    destruct Hwindows as (st' & Hrun & _ & Hlength); [vm_compute; congruence |].
    exists st'. split; [exact Hrun |]. split; [rewrite Hlength; reflexivity |].
    assert (Hst : st' = (generateTableBackup 10 env_real_mkdir
                           (options_with_batch 500000) "sales"
                           (NewTable "orders" 2000000) state_start).2)
      by by rewrite Hrun.
    rewrite Hst. vm_compute. reflexivity.
  - destruct (C2_batch_windows 3 env_quiet (options_with_batch (2 ^ 63 - 1)) "sales"
                (NewTable "orders" 1) state_start) as [Hwindows _].
    { apply env_quiet_all_succeed. }
    { vm_compute. congruence. }
    { reflexivity. }
    { vm_compute. congruence. }
    destruct Hwindows as (st' & Hrun & _ & Hlength); [vm_compute; congruence |].
    exists st'. split; [exact Hrun |]. rewrite Hlength. reflexivity.
Defined.

(** A table without rows is dumped once, with an empty window. *)
Lemma batch_loop_zero_rows :
  dumped (trace (generateTableBackup 10 env_quiet (options_with_batch 500000) "sales"
                   (NewTable "orders" 0) state_start).2)
  = [ [ "-hlocalhost"; "-uroot"; "-p1234";
        "--no-create-db"; "--skip-triggers"; "--no-create-info";
        "-r/backup/daily/2017-08-05/sales-2017-08-05/sales_orders1_20170805.sql";
        "--where=1=1 LIMIT 0, 500000"; "sales"; "orders" ] ].
Proof. vm_compute. reflexivity. Qed.

(** The second end-to-end scenario of the specification: the schema dump and
    five batches of the table orders. *)
Lemma scenario_per_table_batches :
  omap (fun args : list string => args !! 7%nat)
    (dumped (trace (main 10 env_quiet flags_batched state_start).2))
  = [ "--where=1=1 LIMIT 0, 500000"; "--where=1=1 LIMIT 500000, 500000";
      "--where=1=1 LIMIT 1000000, 500000"; "--where=1=1 LIMIT 1500000, 500000";
      "--where=1=1 LIMIT 2000000, 500000" ]
  /\ length (dumped (trace (main 10 env_quiet flags_batched state_start).2)) = 6%nat.
Proof. split; vm_compute; reflexivity. Qed.

(** With the largest row count an [int] holds, no counter exceeds the row
    count: the loop never returns. *)
Lemma batch_loop_max_rows (env : Env) (options : Options) (db : string) (table : Table)
  (st : State) :
  RowCount table = GoInt.MaxInt ->
  never_returns (fun fuel => generateTableBackup fuel env options db table) st.
Proof.
  intros Hmax fuel. apply generateTableBackup_keeps_running. intros k _. rewrite Hmax.
  destruct k as [| k]; simpl; [unfold GoInt.MaxInt; lia |].
  apply wrap_range.
Qed.

(** C2, counterexample: 2^63 - 1 rows in batches of 2^62.  The claim allows
    two dumps; the counter wraps to -2^63 after the second, the third dump
    follows, and the loop never returns. *)
Lemma C2_counterexample_overflow :
  (2 ^ 63 - 1) / 2 ^ 62 + 1 = 2
  /\ dumped (trace (generateTableBackup 3 env_quiet (options_with_batch (2 ^ 62))
                      "sales" (NewTable "orders" (2 ^ 63 - 1)) state_start).2)
     = [ batch_args (options_with_batch (2 ^ 62)) (august 5) "sales"
           (NewTable "orders" (2 ^ 63 - 1)) 1 0;
         batch_args (options_with_batch (2 ^ 62)) (august 5) "sales"
           (NewTable "orders" (2 ^ 63 - 1)) 2 (2 ^ 62);
         batch_args (options_with_batch (2 ^ 62)) (august 5) "sales"
           (NewTable "orders" (2 ^ 63 - 1)) 3 (- 2 ^ 63) ]
  /\ never_returns
       (fun fuel => generateTableBackup fuel env_quiet (options_with_batch (2 ^ 62))
                      "sales" (NewTable "orders" (2 ^ 63 - 1)))
       state_start.
Proof.
  split; [reflexivity |]. split; [vm_compute; reflexivity |].
  by apply batch_loop_max_rows.
Qed.

Lemma iter_add_zero (k : nat) : Nat.iter k (fun c => GoInt.add c 0) 0 = 0.
Proof. induction k as [| k IH]; [done |]. simpl. by rewrite IH. Qed.

Lemma iter_add_negative (b : Z) (k : nat) :
  b < 0 -> Z.of_nat k * - b <= 2 ^ 63 ->
  Nat.iter k (fun c => GoInt.add c b) 0 = Z.of_nat k * b.
Proof.
  intros Hb. induction k as [| k IH]; intros Hk; [done |].
  rewrite Nat.iter_succ, IH by lia.
  unfold GoInt.add. rewrite wrap_in_range; [lia |].
  unfold GoInt.in_range, GoInt.MinInt, GoInt.MaxInt. nia.
Qed.

(** C10 (as amended): for a row count [r >= 0],
    - with a batch size [b > 0] and [r + b] within [int] the counter grows
      past [r] and the loop ends, by returning or, when a dump or archive step
      fails, by leaving with status 4; it returns when none fails;
    - with [b = 0] the loop never returns, and runs on forever when no step
      fails;
    - with [b < 0] the loop does not return as long as the counter has not
      wrapped around below the least [int], that is for at least
      [floor(2^63 / -b) + 1] turns. *)
Theorem C10_batch_loop_termination (env : Env) (options : Options) (db : string)
  (table : Table) (st : State) :
  0 <= RowCount table ->
  (0 < BatchSize options -> RowCount table + BatchSize options <= GoInt.MaxInt ->
     exists fuel,
       ((generateTableBackup fuel env options db table st).1 = Returned tt
        \/ (generateTableBackup fuel env options db table st).1 = Exited 4)
       /\ (all_succeed env ->
           (generateTableBackup fuel env options db table st).1 = Returned tt))
  /\ (BatchSize options = 0 ->
      never_returns (fun fuel => generateTableBackup fuel env options db table) st
      /\ (all_succeed env ->
          forall fuel, (generateTableBackup fuel env options db table st).1 = OutOfFuel))
  /\ (BatchSize options < 0 ->
      forall fuel, (Z.of_nat fuel - 1) * - BatchSize options <= 2 ^ 63 ->
        (generateTableBackup fuel env options db table st).1 <> Returned tt).
Proof.
  intros Hr. split; [| split].
  - intros Hb Hmax.
    destruct (turns_bounds _ _ Hr Hb) as (Hexit & Hlast & Hq).
    set (n := Z.to_nat (RowCount table / BatchSize options + 1)).
    assert (Hn : Z.of_nat n = RowCount table / BatchSize options + 1) by lia.
    exists (S n). split.
    + apply (generateTableBackup_ends env options db table n); try done;
        try (unfold GoInt.MinInt, GoInt.MaxInt in *; rewrite ?Hn; (lia || nia)).
    + intros Hquiet.
      destruct (generateTableBackup_windows env options db table n (S n) st)
        as (st' & Hrun & _); try done;
        try (unfold GoInt.MinInt, GoInt.MaxInt in *; rewrite ?Hn; (lia || nia)).
      by rewrite Hrun.
  - intros Hb.
    assert (Hnever : never_returns
                       (fun fuel => generateTableBackup fuel env options db table) st).
    { intros fuel. apply generateTableBackup_keeps_running. intros k _.
      rewrite Hb, iter_add_zero. done. }
    split; [exact Hnever |]. intros Hquiet fuel.
    destruct (generateTableBackup_quiet_outcome env options db table fuel st Hquiet)
      as [Hret | Hout]; [by apply Hnever in Hret | exact Hout].
  - intros Hb fuel Hfuel. apply generateTableBackup_keeps_running. intros k Hk.
    rewrite iter_add_negative by nia. nia.
Qed.

(** The three cases at concrete batch sizes, for a table with 2000000 rows. *)
Lemma C10_batch_loop_termination_witness :
  (exists fuel,
     (generateTableBackup fuel env_quiet (options_with_batch 500000) "sales"
        (NewTable "orders" 2000000) state_start).1 = Returned tt)
  /\ (generateTableBackup 1000 env_quiet (options_with_batch 0) "sales"
        (NewTable "orders" 2000000) state_start).1 = OutOfFuel
  /\ (generateTableBackup 1000 env_quiet (options_with_batch (-1)) "sales"
        (NewTable "orders" 2000000) state_start).1 <> Returned tt.
Proof.
  split; [| split].
  - destruct (C10_batch_loop_termination env_quiet (options_with_batch 500000) "sales"
                (NewTable "orders" 2000000) state_start) as [Hpos _].
    { vm_compute. congruence. }
    destruct Hpos as (fuel & _ & Hret); [reflexivity | vm_compute; congruence |].
    exists fuel. apply Hret, env_quiet_all_succeed.
  - destruct (C10_batch_loop_termination env_quiet (options_with_batch 0) "sales"
                (NewTable "orders" 2000000) state_start) as (_ & Hzero & _).
    { vm_compute. congruence. }
    destruct Hzero as [_ Hforever]; [reflexivity |].
    apply Hforever, env_quiet_all_succeed.
  - destruct (C10_batch_loop_termination env_quiet (options_with_batch (-1)) "sales"
                (NewTable "orders" 2000000) state_start) as (_ & _ & Hneg).
    { vm_compute. congruence. }
    apply Hneg; [reflexivity | vm_compute; congruence].
Defined.

(** C10, counterexample: a table without rows and the batch size -(2^63 - 1).
    The counter goes 0, -(2^63 - 1), and wraps around to 2: the loop returns
    after two dumps although the batch size is negative. *)
Lemma C10_counterexample_negative_batch :
  BatchSize (options_with_batch (- (2 ^ 63 - 1))) <= 0
  /\ 0 <= RowCount (NewTable "orders" 0)
  /\ (generateTableBackup 3 env_quiet (options_with_batch (- (2 ^ 63 - 1))) "sales"
        (NewTable "orders" 0) state_start).1 = Returned tt
  /\ length (dumped (trace (generateTableBackup 3 env_quiet
                              (options_with_batch (- (2 ^ 63 - 1))) "sales"
                              (NewTable "orders" 0) state_start).2)) = 2%nat.
Proof. repeat split; vm_compute; congruence. Qed.

(** ** The rotation *)

Section Rotation.

Implicit Types (d : Disk) (p dir : string).

Lemma length_append (s1 s2 : string) :
  String.length (s1 +:+ s2) = (String.length s1 + String.length s2)%nat.
Proof. induction s1 as [| c s1 IH]; [done |]. rewrite append_cons. simpl. by rewrite IH. Qed.

(** The walk always starts with its root, whether [Lstat] finds it or not. *)
Lemma Walk_starts_with_root d dir : exists rest, Walk d dir = dir :: rest.
Proof.
  unfold Walk. destruct (Lstat d dir) as [info |]; [| by exists []].
  destruct info; simpl; eauto.
Qed.

Lemma ListFiles_filter d dir : ListFiles d dir = filter not_bare_tier (Walk d dir).
Proof.
  unfold ListFiles. rewrite (fold_append_filter not_bare_tier); [done |].
  intros ab x. unfold not_bare_tier.
  destruct (decide _) as [(H1 & H2 & H3) | Hbare].
  - by rewrite !bool_decide_eq_false_2.
  - repeat case_bool_decide; try done. exfalso. by apply Hbare.
Qed.

Lemma ListFiles_starts_with_root d dir :
  not_bare_tier dir -> exists rest, ListFiles d dir = dir :: rest.
Proof.
  intros Hdir. rewrite ListFiles_filter.
  destruct (Walk_starts_with_root d dir) as (rest & ->).
  rewrite filter_cons_True by done. eauto.
Qed.

(** A path that ends in a slash and a tier name is longer than any bare tier
    name, or differs from it in its first character. *)
Lemma tier_path_not_bare (out tier : string) :
  tier ∈ ["daily"; "weekly"; "monthly"] -> not_bare_tier (out +:+ "/" +:+ tier).
Proof.
  intros Htier. unfold not_bare_tier.
  repeat (apply elem_of_cons in Htier as [-> | Htier]);
    [| | | by apply elem_of_nil in Htier];
    repeat split; intros Heq;
    pose proof (f_equal String.length Heq) as Hlen;
    rewrite !length_append in Hlen; simpl in Hlen;
    (destruct out as [| c1 [| c2 out]]; simpl in Hlen; try lia);
    cbv in Heq; congruence.
Qed.

Lemma tier_listing_not_empty d (out tier : string) :
  tier ∈ ["daily"; "weekly"; "monthly"] ->
  length (ListFiles d (out +:+ "/" +:+ tier)) <> O.
Proof.
  intros Htier.
  destruct (ListFiles_starts_with_root d _ (tier_path_not_bare out tier Htier))
    as (rest & ->).
  done.
Qed.

(** The rotation leaves the disk as it found it: the listing of the monthly
    tier is never empty, so nothing is copied, and nothing else writes. *)
Lemma BackupRotation_unchanged (fuel : nat) (options : Options) (t : Time) d :
  BackupRotation fuel options t d = Some d.
Proof.
  unfold BackupRotation.
  pose proof (tier_listing_not_empty d (OutputDirectory options) "monthly") as Hmonth.
  change (OutputDirectory options +:+ "/" +:+ "monthly")
    with (OutputDirectory options +:+ "/monthly") in Hmonth.
  apply Nat.eqb_neq in Hmonth; [| set_solver].
  rewrite Hmonth.
  destruct (MontlyRotation options >? 0), (WeeklyRotation options >? 0),
    (DailyRotation options >? 0); simpl;
    repeat match goal with |- context [if ?c then _ else _] => destruct c end; done.
Qed.

End Rotation.

(** C9 (as amended): for every path [dir] other than the bare names daily,
    weekly and monthly, the listing [ListFiles dir] starts with [dir] itself,
    whether the directory exists or not; the paths [BackupRotation] lists,
    the output directory followed by a slash and a tier name, are of this
    kind, so their listings are never empty, the test for an empty monthly
    tier never succeeds, and the rotation leaves the disk as it found it. *)
Theorem C9_listing_holds_its_root (d : Disk) (dir : string) (fuel : nat)
  (options : Options) (t : Time) :
  (not_bare_tier dir -> exists rest, ListFiles d dir = dir :: rest)
  /\ (forall tier, tier ∈ ["daily"; "weekly"; "monthly"] ->
        length (ListFiles d (OutputDirectory options +:+ "/" +:+ tier)) <> O)
  /\ BackupRotation fuel options t d = Some d.
Proof.
  split; [apply ListFiles_starts_with_root |].
  split; [intros tier; apply tier_listing_not_empty | apply BackupRotation_unchanged].
Qed.

(** The empty monthly tier of the first day: its listing holds the path of
    the tier. *)
Lemma C9_listing_holds_its_root_witness :
  (exists rest, ListFiles disk_first_day "/backup/monthly" = "/backup/monthly" :: rest)
  /\ length (ListFiles disk_first_day "/backup/monthly") <> O.
Proof.
  destruct (C9_listing_holds_its_root disk_first_day "/backup/monthly" 10
              (options_with_retention 5 2 1) (august 5)) as (Hroot & Htier & _).
  split.
  - apply Hroot. repeat split; discriminate.
  - apply (Htier "monthly"). set_solver.
Defined.

(** C9, counterexample: the same tier named by the bare relative path
    monthly, from the backup directory: the directory exists and its listing
    is empty. *)
Lemma C9_counterexample_bare_tier_name :
  Lstat disk_first_day "monthly" = Some (Dir [])
  /\ ListFiles disk_first_day "monthly" = [].
Proof. split; vm_compute; reflexivity. Qed.

(** C3, at the failing input: three daily snapshots and a daily retention
    of two.  After the rotation the daily tier still holds all three: the
    oldest snapshot, beyond the retention count, has not been deleted. *)
Lemma C3_old_snapshots_are_kept :
  DailyRotation (options_with_retention 2 2 1) = 2
  /\ snapshots disk_third_day "/backup/daily"
     = ["2017-08-03"; "2017-08-04"; "2017-08-05"]
  /\ exists d',
       BackupRotation 10 (options_with_retention 2 2 1) (august 5) disk_third_day
       = Some d'
       /\ snapshots d' "/backup/daily" = ["2017-08-03"; "2017-08-04"; "2017-08-05"]
       /\ (2 < length (snapshots d' "/backup/daily"))%nat.
Proof.
  split; [reflexivity |]. split; [vm_compute; reflexivity |].
  exists disk_third_day. split; [vm_compute; reflexivity |].
  split; [vm_compute; reflexivity |]. vm_compute. lia.
Qed.

(** C4, at the failing input: a monthly retention of 1 and a monthly tier
    without snapshots.  The rotation leaves the monthly tier empty, although
    the copy it does not make would have succeeded. *)
Lemma C4_promotion_is_skipped :
  MontlyRotation (options_with_retention 5 2 1) = 1
  /\ snapshots disk_first_day "/backup/monthly" = []
  /\ (exists d',
        BackupRotation 10 (options_with_retention 5 2 1) (august 5) disk_first_day
        = Some d'
        /\ snapshots d' "/backup/monthly" = [])
  /\ (exists d',
        CopyDir 10 disk_first_day "/backup/daily/2017-08-05" "/backup/monthly/2017-08-05"
        = Some (d', true)
        /\ snapshots d' "/backup/monthly" = ["2017-08-05"]
        /\ snapshots d' "/backup/daily" = ["2017-08-05"]).
Proof.
  split; [reflexivity |]. split; [vm_compute; reflexivity |]. split.
  - exists disk_first_day. split; vm_compute; reflexivity.
  - eexists. split; [vm_compute; reflexivity |]. split; vm_compute; reflexivity.
Qed.

(** ** File names *)

(** C8, at the failing input: a run for the database sales that starts on
    5 August and makes its dump after midnight.  The dump goes to the
    directory daily/2017-08-06 -- the date of the clock when the file is
    made -- while the directory of the database and the time stamp carry
    the start date 2017-08-05. *)
Lemma C8_dump_after_midnight :
  dumped (trace (main 5 env_midnight flags_sales state_start).2)
  = [ [ "-hlocalhost"; "-uroot"; "-p1234";
        "-r/backup/daily/2017-08-06/sales-2017-08-05/sales_ALL_20170805.sql";
        "sales" ] ].
Proof. vm_compute. reflexivity. Qed.

(** The same run when the clock stays on 5 August: one date throughout. *)
Lemma dump_same_day :
  dumped (trace (main 5 (env_sales (fun _ => august 5)) flags_sales state_start).2)
  = [ [ "-hlocalhost"; "-uroot"; "-p1234";
        "-r/backup/daily/2017-08-05/sales-2017-08-05/sales_ALL_20170805.sql";
        "sales" ] ].
Proof. vm_compute. reflexivity. Qed.


(** * Further properties of the program *)

(** ** Total row count *)

Lemma total_from (tables : list Table) (acc : Z) :
  GoInt.wrap
    (fold_left (fun result table => GoInt.add result (RowCount table)) tables acc)
  = GoInt.wrap (acc + row_sum tables).
Proof.
  revert acc. induction tables as [| t tables IH]; intros acc; simpl.
  - unfold row_sum. simpl. by rewrite Z.add_0_r.
  - rewrite IH. unfold GoInt.add, row_sum. simpl.
    rewrite wrap_add_wrap. f_equal. lia.
Qed.

Lemma total_in_range (tables : list Table) (acc : Z) :
  GoInt.in_range acc ->
  GoInt.in_range
    (fold_left (fun result table => GoInt.add result (RowCount table)) tables acc).
Proof.
  revert acc. induction tables as [| t tables IH]; intros acc Hacc; simpl; [done |].
  apply IH, wrap_range.
Qed.

(** X1: the total row count of a database is the sum of the row counts of
    its tables reduced into Go's [int] by wrap-around; it is the sum itself
    exactly when the sum fits. *)
Theorem X1_total_row_count_wraps (tables : list Table) :
  getTotalRowCount tables = GoInt.wrap (row_sum tables)
  /\ (GoInt.in_range (row_sum tables) <-> getTotalRowCount tables = row_sum tables).
Proof.
  assert (Htotal : getTotalRowCount tables = GoInt.wrap (row_sum tables)).
  { unfold getTotalRowCount.
    rewrite <- (wrap_in_range (fold_left _ tables 0)).
    - by rewrite total_from.
    - apply total_in_range. unfold GoInt.in_range, GoInt.MinInt, GoInt.MaxInt. lia. }
  split; [exact Htotal |]. split.
  - intros Hfits. by rewrite Htotal, wrap_in_range.
  - intros Heq. rewrite <- Heq, Htotal. apply wrap_range.
Qed.

(** Two tables of 2^62 rows each: the sum 2^63 does not fit, the total reads
    -2^63, and the database is planned as a single file whatever the
    threshold up to which one file is made. *)
Lemma X1_total_row_count_wraps_witness :
  getTotalRowCount [NewTable "a" (2 ^ 62); NewTable "b" (2 ^ 62)] = - 2 ^ 63
  /\ getTotalRowCount [NewTable "orders" 50; NewTable "customers" 10] = 60.
Proof.
  split.
  - destruct (X1_total_row_count_wraps [NewTable "a" (2 ^ 62); NewTable "b" (2 ^ 62)])
      as [Htotal _].
    rewrite Htotal. reflexivity.
  - apply (X1_total_row_count_wraps [NewTable "orders" 50; NewTable "customers" 10]).
    vm_compute. split; congruence.
Defined.

(** ** More on the database lists *)

Section ListsMore.

Implicit Types (l a b : list string) (x : string).

Lemma dedup_fold_snoc l x :
  fold_left dedup_step (l ++ [x]) (∅, []) = dedup_step (fold_left dedup_step l (∅, [])) x.
Proof. by rewrite fold_left_app. Qed.

(** On a list without repetition the loop appends every element. *)
Lemma removeDuplicates_NoDup l : NoDup l -> removeDuplicates l = l.
Proof.
  unfold removeDuplicates.
  induction l as [| x l IH] using rev_ind; intros Hnd; [done |].
  apply NoDup_app in Hnd as (Hl & Hfresh & _).
  rewrite dedup_fold_snoc.
  destruct (dedup_inv_fold l) as (Henc & _).
  destruct (fold_left dedup_step l (∅, [])) as [enc res] eqn:Hfold.
  simpl in *. specialize (IH Hl). subst res.
  destruct (map_get enc x) eqn:Hx.
  - apply Henc in Hx. exfalso. apply (Hfresh x Hx). by apply list_elem_of_singleton.
  - done.
Qed.

(** X2: deduplication changes nothing in a list without repetition, so
    deduplicating twice is deduplicating once; the result is never longer
    than the list, and has its length only when nothing was repeated. *)
Theorem X2_removeDuplicates_idempotent l :
  (NoDup l <-> removeDuplicates l = l)
  /\ removeDuplicates (removeDuplicates l) = removeDuplicates l
  /\ (length (removeDuplicates l) <= length l)%nat.
Proof.
  destruct (dedup_inv_fold l) as (_ & Hnd & Hmem & _).
  split; [| split].
  - split; [apply removeDuplicates_NoDup |]. intros Heq. rewrite <- Heq. exact Hnd.
  - by apply removeDuplicates_NoDup.
  - apply submseteq_length, NoDup_submseteq; [exact Hnd |].
    intros x Hx. by apply Hmem.
Qed.

Lemma X2_removeDuplicates_idempotent_witness :
  removeDuplicates ["mysql"; "app"; "test"] = ["mysql"; "app"; "test"].
Proof.
  destruct (X2_removeDuplicates_idempotent ["mysql"; "app"; "test"]) as [[Hid _] _].
  apply Hid. apply (bool_decide_unpack _). vm_compute. exact I.
Defined.

(** X3: [difference a b] is the list [a] without the elements that occur in
    [b]: the order of [a] is kept, and so are its repetitions; with an empty
    [b] it is [a], and nothing is left of [a] when [b] holds all its
    elements. *)
Theorem X3_difference_filters a b :
  difference a b = filter (fun x => x ∉ b) a
  /\ (forall x, x ∈ difference a b <-> x ∈ a /\ x ∉ b)
  /\ difference a [] = a
  /\ (a ⊆ b -> difference a b = []).
Proof.
  assert (Hempty : forall c : list string, difference c [] = c).
  { intros c. rewrite difference_filter. induction c as [| x c IH]; [done |].
    rewrite filter_cons_True by set_solver. by rewrite IH. }
  split; [apply difference_filter |]. split; [| split; [apply Hempty |]].
  - intros x. rewrite difference_filter, list_elem_of_filter. tauto.
  - intros Hsub. rewrite difference_filter.
    induction a as [| x a IH]; [done |].
    rewrite filter_cons_False by (intros Hx; apply Hx, Hsub; set_solver).
    apply IH. intros y Hy. apply Hsub. set_solver.
Qed.

(** A repeated name of the first list is kept as often as it occurs. *)
Lemma X3_difference_filters_witness :
  difference ["app"; "test"; "app"] ["test"] = ["app"; "app"]
  /\ difference ["app"; "test"] ["test"; "app"; "mysql"] = [].
Proof.
  split.
  - destruct (X3_difference_filters ["app"; "test"; "app"] ["test"]) as [Heq _].
    rewrite Heq. vm_compute. reflexivity.
  - apply (X3_difference_filters ["app"; "test"] ["test"; "app"; "mysql"]).
    intros x. rewrite !elem_of_cons, !elem_of_nil. tauto.
Defined.

End ListsMore.

(** ** More on the options *)

Section NamesOfAnOption.

Implicit Types (s : string) (cur : list ascii).

Lemma split_from_not_empty sep skip cur s : GoStrings.split_from skip sep cur s <> [].
Proof.
  revert skip cur. induction s as [| c s IH]; intros skip cur; simpl; [done |].
  destruct skip; [| apply IH]. destruct (GoStrings.HasPrefix _ _); [done | apply IH].
Qed.

Lemma blank_free_of_list cur :
  Forall (fun c => c <> " "%char) cur ->
  blank_free (string_of_list_ascii cur) = true.
Proof.
  induction 1 as [| c cur Hc _ IH]; [done |]. simpl.
  rewrite IH, andb_true_r. apply negb_true_iff. by apply Ascii.eqb_neq.
Qed.

Lemma split_from_blank_free cur s :
  Forall (fun c => c <> " "%char) cur -> blank_free s = true ->
  Forall (fun name => blank_free name = true) (GoStrings.split_from 0 "," cur s).
Proof.
  revert cur. induction s as [| c s IH]; intros cur Hcur Hs.
  - apply Forall_singleton, blank_free_of_list. by apply Forall_rev.
  - rewrite split_from_single. cbn [blank_free] in Hs.
    apply andb_true_iff in Hs as [Hc Hs].
    destruct (Ascii.eqb "," c).
    + apply Forall_cons. split; [apply blank_free_of_list; by apply Forall_rev |].
      by apply IH.
    + apply IH; [| done]. apply Forall_cons. split; [| done].
      apply negb_true_iff in Hc. by apply Ascii.eqb_neq.
Qed.

(** X4: a comma-separated option always yields at least one name -- the
    empty option yields the one empty name -- and no name holds a blank, so
    a database whose name has a blank cannot be named by an option; the
    deduplicated list of names is not empty either. *)
Theorem X4_option_names_not_empty s :
  option_names s <> []
  /\ Forall (fun name => blank_free name = true) (option_names s)
  /\ removeDuplicates (option_names s) <> []
  /\ option_names "" = [""].
Proof.
  assert (Hne : option_names s <> []) by apply split_from_not_empty.
  split; [exact Hne |]. split; [| split; [| reflexivity]].
  - unfold option_names, GoStrings.Split.
    apply split_from_blank_free; [constructor |].
    rewrite strip_blanks_Replace. apply Replace_blank_free.
  - intros Hempty. destruct (option_names s) as [| name names] eqn:Hnames; [done |].
    assert (Hin : name ∈ removeDuplicates (name :: names))
      by (apply removeDuplicates_elem_of; left).
    rewrite Hempty in Hin. by apply elem_of_nil in Hin.
Qed.

End NamesOfAnOption.

Section ExplicitDatabases.

Variables (env : Env) (hostname bind username password : string).
Variables (databases excludeddatabases : string).
Variables (databasetreshold tablethreshold batchsize : Z) (forcesplit : bool).
Variables (additionals : string) (verbosity : Z) (mysqldumppath outputDirectory : string).
Variables (defaultsProvidedByUser : bool) (dailyrotation weeklyrotation montlyrotation : Z).

(** X5: when the databases option is anything but --all-databases, the
    targets are its names, deduplicated; the server is not queried, and the
    exclusion option has no effect at all on the result. *)
Theorem X5_explicit_databases_ignore_exclusions (st : State) (other : string) :
  strip_blanks databases <> "--all-databases" ->
  exists opts,
    NewOptions env hostname bind username password databases excludeddatabases
      databasetreshold tablethreshold batchsize forcesplit additionals verbosity
      mysqldumppath outputDirectory defaultsProvidedByUser
      dailyrotation weeklyrotation montlyrotation st
    = (Returned opts, {| ticks := S (ticks st); trace := trace st |})
    /\ Databases opts = removeDuplicates (option_names databases)
    /\ NewOptions env hostname bind username password databases other
         databasetreshold tablethreshold batchsize forcesplit additionals verbosity
         mysqldumppath outputDirectory defaultsProvidedByUser
         dailyrotation weeklyrotation montlyrotation st
       = (Returned opts, {| ticks := S (ticks st); trace := trace st |}).
Proof.
  intros Hexplicit. unfold NewOptions.
  rewrite bool_decide_eq_false_2 by done.
  eexists. split; [reflexivity |]. split; reflexivity.
Qed.

(** X6: the options [NewOptions] returns never list an excluded database:
    their field [ExcludedDatabases] is empty in either mode, whatever the
    exclusion option holds. *)
Theorem X6_excluded_databases_stay_empty (st st' : State) (opts : Options) :
  NewOptions env hostname bind username password databases excludeddatabases
    databasetreshold tablethreshold batchsize forcesplit additionals verbosity
    mysqldumppath outputDirectory defaultsProvidedByUser
    dailyrotation weeklyrotation montlyrotation st = (Returned opts, st') ->
  ExcludedDatabases opts = [].
Proof.
  unfold NewOptions, mbind, M_bind, GetDatabaseList, Now, pure, panic.
  case_bool_decide.
  - destruct (query_databases env (trace st)); [| discriminate].
    intros [= <- _]. reflexivity.
  - intros [= <- _]. reflexivity.
Qed.

End ExplicitDatabases.

(** The database list "sales, crm ,sales" with the exclusion option "crm":
    the exclusion is not applied. *)
Lemma X5_explicit_databases_ignore_exclusions_witness :
  exists opts st',
    NewOptions env_quiet "localhost" "3306" "root" "1234" "sales, crm ,sales" "crm"
      10000000 5000000 1000000 false "" 2 "/usr/bin/mysqldump" "/backup" true
      5 2 1 state_start = (Returned opts, st')
    /\ Databases opts = ["sales"; "crm"].
Proof.
  destruct (X5_explicit_databases_ignore_exclusions env_quiet "localhost" "3306" "root"
              "1234" "sales, crm ,sales" "crm" 10000000 5000000 1000000 false "" 2
              "/usr/bin/mysqldump" "/backup" true 5 2 1 state_start "")
    as (opts & Hrun & Hdbs & _); [vm_compute; congruence |].
  exists opts; eexists. split; [exact Hrun |]. rewrite Hdbs. vm_compute. reflexivity.
Defined.

(** An all-databases run that excludes test: the returned options do not
    record it. *)
Lemma X6_excluded_databases_stay_empty_witness :
  exists opts st',
    NewOptions env_quiet "localhost" "3306" "root" "1234" "--all-databases" "test"
      10000000 5000000 1000000 false "" 2 "/usr/bin/mysqldump" "/backup" true
      5 2 1 state_start = (Returned opts, st')
    /\ ExcludedDatabases opts = [].
Proof.
  eexists _, _. split; [vm_compute; reflexivity |].
  eapply (X6_excluded_databases_stay_empty env_quiet "localhost" "3306" "root" "1234"
            "--all-databases" "test" 10000000 5000000 1000000 false "" 2
            "/usr/bin/mysqldump" "/backup" true 5 2 1 state_start).
  vm_compute. reflexivity.
Defined.

(** ** Archiving *)

(** Finds the events a computation has put in front of a history. *)
Ltac new_events :=
  repeat (eapply history_cons); symmetry; apply app_nil_l.

(** Finds an element in a list that is written out. *)
Ltac listed :=
  repeat (first [ by apply list_elem_of_here | apply list_elem_of_further ]).

(** X7: [Compress] always comes back to its caller.  It removes the source
    file only after the header and the bytes have been written; and when it
    reports no error, either [file.Stat] had failed and nothing was archived
    or removed, or the file was archived and removed. *)
Theorem X7_Compress_removes_after_copy (env : Env) (p : string) (st : State) :
  exists ok new,
    (Compress env p st).1 = Returned ok
    /\ trace (Compress env p st).2 = new ++ trace st
    /\ (forall q answer, EvOs OpRemove q answer ∈ new ->
          q = p /\ EvOs OpWriteHeader p true ∈ new /\ EvOs OpCopy p true ∈ new)
    /\ (ok = true ->
          new = [EvOs OpFileStat p false; EvOs OpOpen p true]
          \/ (EvOs OpCopy p true ∈ new /\ EvOs OpRemove p true ∈ new)).
Proof.
  unfold Compress, os_call, pure, mbind, M_bind, emit. cbv beta iota.
  repeat match goal with
    | |- context [os_result ?e ?h ?o ?q] =>
        destruct (os_result e h o q); cbv beta iota delta [negb fst snd ticks trace]
    end;
    (eexists _, _; split; [reflexivity |]; split; [new_events |]; split).
  all: try (intros q answer Hin;
            repeat (apply elem_of_cons in Hin as [Hin | Hin]; try discriminate Hin);
            try (by apply elem_of_nil in Hin);
            injection Hin as -> ->; split; try done; split; listed).
  all: intros Hok; try discriminate Hok;
    first [ by left | right; split; listed ].
Qed.

(** A disk that is full when the header is written: the source file is not
    removed. *)
Lemma X7_Compress_removes_after_copy_witness :
  Forall (fun e => e <> EvOs OpRemove "/backup/sales_ALL_20170805.sql" true
                   /\ e <> EvOs OpRemove "/backup/sales_ALL_20170805.sql" false)
    (trace (Compress env_disk_full "/backup/sales_ALL_20170805.sql" state_start).2).
Proof.
  destruct (X7_Compress_removes_after_copy env_disk_full
              "/backup/sales_ALL_20170805.sql" state_start)
    as (ok & new & _ & Htrace & Hremove & _).
  change (trace state_start) with (@nil Event) in Htrace.
  rewrite app_nil_r in Htrace.
  assert (Hheader : EvOs OpWriteHeader "/backup/sales_ALL_20170805.sql" true ∉ new).
  { rewrite <- Htrace. vm_compute. intros Hin.
    repeat (apply elem_of_cons in Hin as [Hin | Hin]; [discriminate |]).
    by apply elem_of_nil in Hin. }
  rewrite Htrace. apply Forall_forall. intros e He.
  split; intros ->; apply Hheader; by destruct (Hremove _ _ He) as (_ & Hin & _).
Defined.

(** ** Dumps per database *)

Section DumpsPerDatabase.

Context (env : Env) (options : Options) (db : string).

(** One whole-database dump when no step fails that the program acts on:
    it returns after one reading of the clock and one dump, whether
    [os.Mkdir], [file.Stat] and the deferred calls succeed or not. *)
Lemma generate_whole_quiet flags tag st :
  all_succeed env ->
  exists st',
    generate_whole env options db flags tag st = (Returned tt, st')
    /\ ticks st' = S (ticks st)
    /\ dumped (trace st') =
       dumped (trace st) ++ [whole_args options (time_Now env (ticks st)) db flags tag].
Proof.
  intros [Hdump Hos].
  pose proof (fun h p => Hos h OpCreate p eq_refl) as Hcreate.
  pose proof (fun h p => Hos h OpOpen p eq_refl) as Hopen.
  pose proof (fun h p => Hos h OpWriteHeader p eq_refl) as Hheader.
  pose proof (fun h p => Hos h OpCopy p eq_refl) as Hcopy.
  pose proof (fun h p => Hos h OpRemove p eq_refl) as Hremove.
  unfold generate_whole, dump_and_archive, close_archive, Compress, run_command,
    os_call, Now, pure, mbind, M_bind, emit, whole_args.
  cbn [ticks trace].
  repeat first
    [ progress (rewrite ?Hcreate, ?Hopen, ?Hheader, ?Hcopy, ?Hremove, ?Hdump,
                  ?(bool_decide_eq_true_2 ("" = "") eq_refl);
                cbv beta iota delta [negb]; cbn [ticks trace])
    | match goal with
      | |- context [os_result ?e ?h OpFileStat ?p] =>
          destruct (os_result e h OpFileStat p); cbv beta iota delta [negb];
          cbn [ticks trace]
      end ];
    (eexists; split; [reflexivity |]; split; [reflexivity |]);
    cbn [trace]; by rewrite !dumped_cons_os, dumped_cons_dump, dumped_cons_os.
Qed.

Lemma length_table_dumps tick (tables : list Table) :
  length (table_dumps env options db tick tables)
  = sum_list (map (windows (BatchSize options)) tables).
Proof.
  revert tick. induction tables as [| table tables IH]; intros tick; [done |].
  cbn [table_dumps map sum_list].
  by rewrite length_app, length_map, length_seq, IH.
Qed.

(** The batching loops of the tables of a database, one after the other. *)
Lemma table_loops_quiet fuel (tables : list Table) st :
  all_succeed env -> 0 < BatchSize options ->
  Forall (fun table =>
            0 <= RowCount table
            /\ (RowCount table / BatchSize options + 1) * BatchSize options
               <= GoInt.MaxInt
            /\ RowCount table / BatchSize options + 1 < Z.of_nat fuel) tables ->
  exists st',
    for_each tables (generateTableBackup fuel env options db) st = (Returned tt, st')
    /\ dumped (trace st') =
       dumped (trace st) ++ table_dumps env options db (ticks st) tables.
Proof.
  intros Hquiet Hb Htables. revert st.
  induction Htables as [| table tables (Hr & Hmax & Hfuel) _ IH]; intros st.
  - exists st. split; [done |]. simpl. by rewrite app_nil_r.
  - cbn [for_each]. unfold mbind, M_bind.
    destruct (turns_bounds _ _ Hr Hb) as (Hexit & Hlast & Hq).
    set (n := windows (BatchSize options) table).
    assert (Hn : Z.of_nat n = RowCount table / BatchSize options + 1)
      by (unfold n, windows; lia).
    assert (Hnmax : Z.of_nat n <= GoInt.MaxInt) by (unfold GoInt.MaxInt in *; nia).
    rewrite <- Hn in Hexit, Hmax.
    destruct (generateTableBackup_windows env options db table n fuel st
                Hquiet Hb ltac:(lia) Hexit ltac:(intros _; rewrite Hn; nia) Hmax Hnmax)
      as (st1 & -> & Hticks & Hdumped).
    destruct (IH st1) as (st' & Hrest & Hdumped').
    exists st'. split; [exact Hrest |].
    rewrite Hdumped', Hdumped, Hticks, <- app_assoc. done.
Qed.

(** X8: when no dump writes to its standard error and no archive step fails
    whose error the program checks, a database is dumped once as a single
    file, twice -- its schema, then its data -- when the two are split, and,
    when it is dumped per table, once for the schema and then
    [floor(r/b) + 1] times for every table with [r] rows and batch size [b],
    in the order of the tables and of the windows -- provided that [b > 0]
    and that for no table the first offset beyond [r] overflows [int].  The
    arguments of every dump are those of [dumps_expected]. *)
Theorem X8_dumps_per_database (fuel : nat) (tables : list Table) (st : State) :
  all_succeed env ->
  query_tables env (trace st) db = Some tables ->
  0 < BatchSize options ->
  Forall (fun table =>
            0 <= RowCount table
            /\ (RowCount table / BatchSize options + 1) * BatchSize options
               <= GoInt.MaxInt
            /\ RowCount table / BatchSize options + 1 < Z.of_nat fuel) tables ->
  exists st',
    process_database fuel env options db st = (Returned tt, st')
    /\ dumped (trace st') =
       dumped (trace st)
         ++ dumps_expected env options db
              (plan (ForceSplit options) (getTotalRowCount tables)
                 (DatabaseRowCountTreshold options))
              (ticks st) tables
    /\ length (dumped (trace st')) =
       (length (dumped (trace st))
        + dumps_of_strategy
            (plan (ForceSplit options) (getTotalRowCount tables)
               (DatabaseRowCountTreshold options))
            (BatchSize options) tables)%nat.
Proof.
  intros Hquiet Hquery Hb Htables.
  assert (Hrun : exists st',
             process_database fuel env options db st = (Returned tt, st')
             /\ dumped (trace st') =
                dumped (trace st)
                  ++ dumps_expected env options db
                       (plan (ForceSplit options) (getTotalRowCount tables)
                          (DatabaseRowCountTreshold options))
                       (ticks st) tables).
  { unfold process_database, mbind, M_bind, GetTables, pure. rewrite Hquery.
    destruct (plan _ _ _); cbn [dumps_expected].
    - destruct (generate_whole_quiet [] "ALL" st Hquiet) as (st' & Hrun & _ & Hdumped).
      by exists st'.
    - destruct (generate_whole_quiet ["--no-data"] "SCHEMA" st Hquiet)
        as (st1 & Hrun1 & Hticks1 & Hdumped1).
      destruct (generate_whole_quiet
                  ["--no-create-db"; "--skip-triggers"; "--no-create-info"] "DATA"
                  st1 Hquiet) as (st' & Hrun2 & _ & Hdumped2).
      exists st'. unfold generateSchemaBackup, generateSingleFileDataBackup.
      rewrite Hrun1. split; [exact Hrun2 |].
      rewrite Hdumped2, Hdumped1, Hticks1, <- app_assoc. done.
    - destruct (generate_whole_quiet ["--no-data"] "SCHEMA" st Hquiet)
        as (st1 & Hrun1 & Hticks1 & Hdumped1).
      destruct (table_loops_quiet fuel tables st1 Hquiet Hb Htables)
        as (st' & Hrun2 & Hdumped2).
      exists st'. unfold generateSchemaBackup. rewrite Hrun1.
      split; [exact Hrun2 |].
      rewrite Hdumped2, Hdumped1, Hticks1, <- app_assoc. done.
    - exists st. split; [done |]. by rewrite app_nil_r. }
  destruct Hrun as (st' & Hrun & Hdumped).
  exists st'. split; [exact Hrun |]. split; [exact Hdumped |].
  rewrite Hdumped, length_app. f_equal.
  destruct (plan _ _ _); cbn [dumps_expected dumps_of_strategy length]; try done.
  by rewrite length_table_dumps.
Qed.

End DumpsPerDatabase.

(** The second end-to-end scenario of the specification with a second table,
    on a disk that keeps what is made on it: orders with two million rows and
    customers with ten, in batches of 500000, give 1 + 5 + 1 dumps, the
    schema first and the one window of customers last, while [os.Mkdir]
    succeeds for the first dump only. *)
Lemma X8_dumps_per_database_witness :
  exists st',
    process_database 10
      (env_sales_tables [NewTable "orders" 2000000; NewTable "customers" 10])
      (options_with_batch 500000) "sales" state_start = (Returned tt, st')
    /\ length (dumped (trace st')) = 7%nat
    /\ omap (fun args : list string => last args) (dumped (trace st'))
       = ["sales"; "orders"; "orders"; "orders"; "orders"; "orders"; "customers"]
    /\ map snd (calls OpMkdir (trace st'))
       = [true; false; false; false; false; false; false].
Proof.
  destruct (X8_dumps_per_database
              (env_sales_tables [NewTable "orders" 2000000; NewTable "customers" 10])
              (options_with_batch 500000) "sales" 10
              [NewTable "orders" 2000000; NewTable "customers" 10] state_start)
    as (st' & Hrun & Hdumped & Hlength).
  - split; [done |]. intros history op p Hop. by destruct op.
  - reflexivity.
  - reflexivity.
  - repeat (apply Forall_cons; split; [vm_compute; repeat split; congruence |]).
    apply Forall_nil_2.
  - exists st'. split; [exact Hrun |]. split; [rewrite Hlength; reflexivity |].
    split; [rewrite Hdumped; vm_compute; reflexivity |].
    assert (Hst : st' = (process_database 10
                           (env_sales_tables
                              [NewTable "orders" 2000000; NewTable "customers" 10])
                           (options_with_batch 500000) "sales" state_start).2)
      by by rewrite Hrun.
    rewrite Hst. vm_compute. reflexivity.
Defined.

(** ** The per-table threshold *)

Section TableThreshold.

Context (env : Env) (v : Z).






End TableThreshold.

(** ** The test flag *)

Lemma GetOptions_test (env : Env) (flags : Flags) (st : State) :
  flag_test flags = true ->
  ((GetOptions env flags st).1 = Exited 4
   \/ (GetOptions env flags st).1 = Exited 1
   \/ (GetOptions env flags st).1 = Panicked)
  /\ (dumped (trace (GetOptions env flags st).2) = dumped (trace st)
      \/ dumped (trace (GetOptions env flags st).2) = dumped (trace st) ++ [test_args]).
Proof.
  intros Htest.
  unfold GetOptions, NewOptions, GetDatabaseList, Now, os_call, run_command, os_Exit,
    pure, panic, mbind, M_bind, emit.
  rewrite Htest.
  repeat (match goal with
          | |- context [os_result ?e ?h ?op ?p] => destruct (os_result e h op p)
          | |- context [query_databases ?e ?h] => destruct (query_databases e h)
          | |- context [bool_decide ?P] => destruct (bool_decide P)
          end; cbv beta iota delta [negb]; cbn [MySQLDumpPath fst snd trace]);
    rewrite ?dumped_cons_dump, ?dumped_cons_os; tauto.
Qed.

(** X10: with the -test flag no database is dumped and nothing is rotated:
    the run ends in [GetOptions], with status 4 after the one dump of the
    test (whatever that dump reports), with status 1 when the executable is
    missing, or in a panic when the list of databases cannot be read. *)
Theorem X10_test_flag_ends_the_run (fuel : nat) (env : Env) (flags : Flags) (st : State) :
  flag_test flags = true ->
  ((main fuel env flags st).1 = Exited 4
   \/ (main fuel env flags st).1 = Exited 1
   \/ (main fuel env flags st).1 = Panicked)
  /\ (dumped (trace (main fuel env flags st).2) = dumped (trace st)
      \/ dumped (trace (main fuel env flags st).2) = dumped (trace st) ++ [test_args]).
Proof.
  intros Htest. destruct (GetOptions_test env flags st Htest) as [Hout Hdumped].
  pose proof (eq_refl (main fuel env flags st)) as Hmain.
  unfold main at 2 in Hmain. unfold mbind at 1 in Hmain. unfold M_bind at 1 in Hmain.
  destruct (GetOptions env flags st) as [[o | code | |] s]; rewrite Hmain;
    cbn [fst snd] in *.
  - destruct Hout as [Hout | [Hout | Hout]]; discriminate.
  - split; [| exact Hdumped].
    destruct Hout as [[= ->] | [[= ->] | Hout]]; [by left | by right; left | discriminate].
  - split; [by right; right | exact Hdumped].
  - destruct Hout as [Hout | [Hout | Hout]]; discriminate.
Qed.

(** The scenario with three databases, under -test. *)
Lemma X10_test_flag_ends_the_run_witness :
  ((main 5 env_quiet flags_test_run state_start).1 = Exited 4
   \/ (main 5 env_quiet flags_test_run state_start).1 = Exited 1
   \/ (main 5 env_quiet flags_test_run state_start).1 = Panicked)
  /\ (dumped (trace (main 5 env_quiet flags_test_run state_start).2)
      = dumped (trace state_start)
      \/ dumped (trace (main 5 env_quiet flags_test_run state_start).2)
         = dumped (trace state_start) ++ [test_args]).
Proof. apply X10_test_flag_ends_the_run. reflexivity. Defined.

(** ** Listing and copying *)

(** X11: [ListFiles] never returns one of the bare names daily, weekly and
    monthly; of a path that [os.Lstat] does not find -- the directory or a
    directory on the way to it is missing -- it returns the path itself, as
    its only entry, unless that path is one of the three names. *)
Theorem X11_ListFiles_of_a_missing_directory (d : Disk) (dir : string) :
  Forall not_bare_tier (ListFiles d dir)
  /\ (Lstat d dir = None -> not_bare_tier dir -> ListFiles d dir = [dir])
  /\ (Lstat d dir = None -> ~ not_bare_tier dir -> ListFiles d dir = []).
Proof.
  rewrite ListFiles_filter. split; [| split].
  - apply Forall_forall. intros p Hp. by apply list_elem_of_filter in Hp as [Hp _].
  - intros Hmissing Hdir. unfold Walk. rewrite Hmissing.
    by rewrite filter_cons_True, filter_nil.
  - intros Hmissing Hdir. unfold Walk. rewrite Hmissing.
    by rewrite filter_cons_False, filter_nil.
Qed.

(** A tier that does not exist, and the daily tier named by way of a
    directory that does not exist: the daily tier has entries, but the path
    does not lead to it. *)
Lemma X11_ListFiles_of_a_missing_directory_witness :
  ListFiles disk_first_day "/backup/yearly" = ["/backup/yearly"]
  /\ ListFiles disk_first_day "/backup/nosuch/../daily" = ["/backup/nosuch/../daily"]
  /\ length (ListFiles disk_first_day "/backup/daily") = 4%nat.
Proof.
  split; [| split; [| vm_compute; reflexivity]].
  - apply (X11_ListFiles_of_a_missing_directory disk_first_day "/backup/yearly").
    + vm_compute. reflexivity.
    + repeat split; discriminate.
  - apply (X11_ListFiles_of_a_missing_directory disk_first_day
             "/backup/nosuch/../daily").
    + vm_compute. reflexivity.
    + repeat split; discriminate.
Defined.

(** X12: [CopyDir] refuses, and leaves the disk as it is, when the source is
    missing, when the source is not a directory, and when the destination
    exists. *)
Theorem X12_CopyDir_refusals (fuel : nat) (d : Disk) (src dst : string) :
  (Stat d (GoPath.Clean src) = None -> CopyDir (S fuel) d src dst = Some (d, false))
  /\ (forall info, Stat d (GoPath.Clean src) = Some info -> IsDir info = false ->
        CopyDir (S fuel) d src dst = Some (d, false))
  /\ (forall info, Stat d (GoPath.Clean dst) = Some info ->
        CopyDir (S fuel) d src dst = Some (d, false)).
Proof.
  split; [| split].
  - intros Hsrc. cbn [CopyDir]. by rewrite Hsrc.
  - intros info Hsrc Hdir. cbn [CopyDir]. by rewrite Hsrc, Hdir.
  - intros info Hdst. cbn [CopyDir]. rewrite Hdst.
    destruct (Stat d (GoPath.Clean src)) as [si |]; [| done]. by destruct (IsDir si).
Qed.

(** The snapshot of the first day cannot be copied over the daily tier, which
    exists. *)
Lemma X12_CopyDir_refusals_witness :
  CopyDir 10 disk_first_day "/backup/daily/2017-08-05" "/backup/daily"
  = Some (disk_first_day, false).
Proof.
  destruct (X12_CopyDir_refusals 9 disk_first_day "/backup/daily/2017-08-05"
              "/backup/daily") as (_ & _ & Hexists).
  eapply Hexists. vm_compute. reflexivity.
Defined.

(** ** Console messages *)

(** X13: an error message is printed exactly at the verbosities 0, 1 and 2,
    a warning at 1 and 2, an information at 2 only; at any other verbosity
    nothing is printed, not even an error; and within 0..2 a higher
    verbosity prints every message a lower one prints. *)
Theorem X13_printMessage_levels (verbosity : Z) :
  (printMessage_prints verbosity MessageType.Error = true <-> 0 <= verbosity <= 2)
  /\ (printMessage_prints verbosity MessageType.Warning = true <-> 1 <= verbosity <= 2)
  /\ (printMessage_prints verbosity MessageType.Info = true <-> verbosity = 2)
  /\ (forall messageType higher,
        printMessage_prints verbosity messageType = true ->
        verbosity <= higher <= 2 ->
        printMessage_prints higher messageType = true).
Proof.
  unfold printMessage_prints, MessageType.Error, MessageType.Warning, MessageType.Info.
  change (Z.shiftl 1 2) with 4. change (Z.shiftl 1 1) with 2. change (Z.shiftl 1 0) with 1.
  repeat split; intros;
    repeat match goal with
      | H : context [?a =? ?b] |- _ => destruct (Z.eqb_spec a b)
      | |- context [?a =? ?b] => destruct (Z.eqb_spec a b)
      | H : context [?a >? ?b] |- _ =>
          let Hgt := fresh in
          destruct (a >? b) eqn:Hgt;
          [apply Z.gtb_lt in Hgt | rewrite Z.gtb_ltb in Hgt; apply Z.ltb_ge in Hgt]
      | |- context [?a >? ?b] =>
          let Hgt := fresh in
          destruct (a >? b) eqn:Hgt;
          [apply Z.gtb_lt in Hgt | rewrite Z.gtb_ltb in Hgt; apply Z.ltb_ge in Hgt]
      end; simpl in *; try done; try lia.
Qed.

Lemma X13_printMessage_levels_witness :
  printMessage_prints 3 MessageType.Error = false
  /\ printMessage_prints 1 MessageType.Error = true.
Proof.
  destruct (X13_printMessage_levels 3) as [Herror3 _].
  destruct (X13_printMessage_levels 1) as [Herror1 _].
  split.
  - destruct (printMessage_prints 3 MessageType.Error); [| done].
    destruct Herror3 as [Hin _]. specialize (Hin eq_refl). lia.
  - apply Herror1. lia.
Defined.

(** ** What a run executes *)

Section Executes.

Context (env : Env) (P : Event -> Prop).

Lemma emits_silent {A : Type} (m : M A) :
  (forall st, trace (m st).2 = trace st) -> emits P m.
Proof. intros H st. exists []. split; [apply H | constructor]. Qed.

Lemma emits_os_call op p : (forall ok, P (EvOs op p ok)) -> emits P (os_call env op p).
Proof.
  intros HP st. exists [EvOs op p (os_result env (trace st) op p)].
  split; [done |]. by repeat constructor.
Qed.

(** Sequencing, with what is known of the value the first part returns. *)
Lemma emits_bind {A B : Type} (Q : A -> Prop) (m : M A) (k : A -> M B) :
  emits P m ->
  (forall st a st', m st = (Returned a, st') -> Q a) ->
  (forall a, Q a -> emits P (k a)) ->
  emits P (m ≫= k).
Proof.
  intros Hm Hpost Hk st. unfold mbind, M_bind.
  destruct (Hm st) as (new1 & Htrace1 & Hall1).
  destruct (m st) as [[a | code | |] st1] eqn:Hrun; simpl in *;
    try (exists new1; by split).
  destruct (Hk a (Hpost _ _ _ Hrun) st1) as (new2 & Htrace2 & Hall2).
  exists (new2 ++ new1). split; [by rewrite Htrace2, Htrace1, app_assoc |].
  by apply Forall_app.
Qed.

Lemma emits_for_each {A : Type} (xs : list A) (body : A -> M unit) :
  (forall x, emits P (body x)) -> emits P (for_each xs body).
Proof.
  intros Hbody. induction xs as [| x xs IH]; simpl.
  - by apply emits_silent.
  - apply (emits_bind (fun _ => True)); [apply Hbody | done | intros _ _; apply IH].
Qed.

End Executes.

Section ExecutesProgram.

Context (env : Env).

Lemma emits_dump_and_archive P options args filename :
  (forall stderr, P (EvDump (MySQLDumpPath options) args stderr)) ->
  (forall op p ok, P (EvOs op p ok)) ->
  emits P (dump_and_archive env options args filename).
Proof.
  intros Hdump Hos st.
  unfold dump_and_archive, Compress, run_command, os_call, os_Exit, pure,
    mbind, M_bind, emit.
  cbn [ticks trace].
  destruct (bool_decide (dump_stderr env (trace st) (MySQLDumpPath options) args = ""));
    cbn [negb];
    repeat match goal with
      | |- context [os_result ?e ?h ?o ?p] =>
          destruct (os_result e h o p); cbn [negb fst snd trace]
      end;
    (eexists; split; [cbn [fst snd trace]; new_events |]);
    repeat constructor; auto.
Qed.

Lemma take_connection_args options rest :
  take 3 (connection_args options ++ rest) = connection_args options.
Proof. reflexivity. Qed.

(** The dumps of one database run the executable of the options, with the
    connection arguments of the options in front. *)
Lemma emits_process_database fuel options db :
  emits (runs_only (MySQLDumpPath options) (connection_args options))
    (process_database fuel env options db).
Proof.
  set (P := runs_only (MySQLDumpPath options) (connection_args options)).
  assert (Hclose : forall archive, emits P (close_archive env archive)).
  { intros archive. unfold close_archive.
    do 3 (apply (emits_bind P (fun _ => True));
          [by apply emits_os_call | done | intros _ _]).
    by apply emits_silent. }
  assert (Hwhole : forall flags tag, emits P (generate_whole env options db flags tag)).
  { intros flags tag. unfold generate_whole.
    apply (emits_bind P (fun _ => True)); [by apply emits_silent | done | intros t _].
    apply (emits_bind P (fun _ => True)); [by apply emits_os_call | done | intros _ _].
    apply (emits_bind P (fun _ => True)); [| done | intros _ _; apply Hclose].
    apply emits_dump_and_archive; [| done].
    intros stderr. split; [done | right]. by rewrite <- app_assoc. }
  assert (Hloop : forall table fuel' index counter deferred,
             emits P (batch_loop fuel' env options db table index counter deferred)).
  { intros table fuel'.
    induction fuel' as [| fuel' IH]; intros index counter deferred; simpl.
    - by apply emits_silent.
    - destruct (counter <=? RowCount table); [| by apply emits_silent].
      apply (emits_bind P (fun _ => True)); [| done | intros archive _; apply IH].
      unfold table_batch.
      apply (emits_bind P (fun _ => True)); [by apply emits_silent | done | intros t _].
      apply (emits_bind P (fun _ => True)); [by apply emits_os_call | done | intros _ _].
      apply (emits_bind P (fun _ => True));
        [| done | intros _ _; by apply emits_silent].
      apply emits_dump_and_archive; [| done].
      intros stderr. split; [done | right]. unfold batch_args.
      by rewrite <- !app_assoc. }
  unfold process_database.
  apply (emits_bind P (fun _ => True)); [| done | intros tables _].
  { apply emits_silent. intros st. unfold GetTables. by destruct (query_tables _ _ _). }
  destruct (plan _ _ _).
  - apply Hwhole.
  - apply (emits_bind P (fun _ => True)); [apply Hwhole | done | intros _ _; apply Hwhole].
  - apply (emits_bind P (fun _ => True)); [apply Hwhole | done | intros _ _].
    apply emits_for_each. intros table. unfold generateTableBackup.
    apply (emits_bind P (fun _ => True)); [apply Hloop | done | intros deferred _].
    apply emits_for_each. apply Hclose.
  - by apply emits_silent.
Qed.

(** The options [GetOptions] returns carry the executable and the connection
    data of the flags. *)
Lemma GetOptions_returns flags st options st' :
  GetOptions env flags st = (Returned options, st') ->
  MySQLDumpPath options = flag_mysqldump_path flags
  /\ connection_args options = flags_connection_args flags.
Proof.
  unfold GetOptions, NewOptions, GetDatabaseList, Now, os_call, run_command, os_Exit,
    pure, panic, mbind, M_bind, emit.
  repeat (match goal with
          | |- context [os_result ?e ?h ?op ?p] => destruct (os_result e h op p)
          | |- context [query_databases ?e ?h] => destruct (query_databases e h)
          | |- context [bool_decide ?P] => destruct (bool_decide P)
          | |- context [flag_test ?f] => destruct (flag_test f)
          end; cbv beta iota delta [negb]; cbn [MySQLDumpPath]);
    intros [= <- _]; done.
Qed.

Lemma emits_GetOptions flags :
  emits (runs_only (flag_mysqldump_path flags) (flags_connection_args flags))
    (GetOptions env flags).
Proof.
  intros st.
  unfold GetOptions, NewOptions, GetDatabaseList, Now, os_call, run_command, os_Exit,
    pure, panic, mbind, M_bind, emit.
  repeat (match goal with
          | |- context [os_result ?e ?h ?op ?p] => destruct (os_result e h op p)
          | |- context [query_databases ?e ?h] => destruct (query_databases e h)
          | |- context [bool_decide ?P] => destruct (bool_decide P)
          | |- context [flag_test ?f] => destruct (flag_test f)
          end; cbv beta iota delta [negb]; cbn [MySQLDumpPath fst snd trace]);
    (eexists; split; [new_events |]); repeat constructor; auto.
Qed.

(** X14: a run executes nothing but the dump executable named by the
    -mysqldump-path flag; and every command it runs, the one dump of the
    -test flag apart, starts with the host, the user and the password of the
    flags as its first three arguments. *)
Theorem X14_run_executes_the_dump_only (fuel : nat) (flags : Flags) (st : State) :
  exists new,
    trace (main fuel env flags st).2 = new ++ trace st
    /\ forall exe args stderr, EvDump exe args stderr ∈ new ->
         exe = flag_mysqldump_path flags
         /\ (args = test_args \/ take 3 args = flags_connection_args flags).
Proof.
  set (P := runs_only (flag_mysqldump_path flags) (flags_connection_args flags)).
  assert (Hmain : emits P (main fuel env flags)).
  { unfold main.
    apply (emits_bind P
             (fun options => MySQLDumpPath options = flag_mysqldump_path flags
                             /\ connection_args options = flags_connection_args flags)).
    - apply emits_GetOptions.
    - intros s options s'. apply GetOptions_returns.
    - intros options [Hexe Hconn].
      apply (emits_bind P (fun _ => True)); [| done | intros _ _].
      { apply emits_for_each. intros db. unfold P. rewrite <- Hexe, <- Hconn.
        apply emits_process_database. }
      apply (emits_bind P (fun _ => True)); [by apply emits_silent | done | intros t _].
      apply (emits_bind P (fun _ => True)); [by apply emits_silent | done | intros d _].
      apply emits_silent. intros s. by destruct (BackupRotation _ _ _ _). }
  destruct (Hmain st) as (new & Htrace & Hall).
  exists new. split; [exact Htrace |].
  intros exe args stderr Hin.
  by apply (proj1 (Forall_forall _ _) Hall) in Hin.
Qed.

End ExecutesProgram.

(** The scenario with the database sales. *)
Lemma X14_run_executes_the_dump_only_witness :
  exists new,
    trace (main 5 (env_sales (fun _ => august 5)) flags_sales state_start).2
    = new ++ trace state_start
    /\ forall exe args stderr, EvDump exe args stderr ∈ new ->
         exe = flag_mysqldump_path flags_sales
         /\ (args = test_args \/ take 3 args = flags_connection_args flags_sales).
Proof.
  exact (X14_run_executes_the_dump_only (env_sales (fun _ => august 5)) 5 flags_sales
           state_start).
Defined.

(** ** Deferred calls *)

Section Deferred.

Context (env : Env) (options : Options) (db : string) (table : Table).







End Deferred.

